(** * fabric-canvas-kit: history engine, pan handlers and configuration

    A shallow embedding of [HistoryManager] (managers/history-manager.ts),
    of [ViewportManager.pan] and [ViewportManager.setZoom]
    (managers/viewport-manager.ts), of the pan handlers of [InputManager]
    (managers/input-manager.ts), and of [mergeConfig] (config.ts) with the
    way the merged configuration reaches the two managers in
    [FabricCanvas.initialize] and [FabricCanvas.configure]
    (fabric-canvas.ts).

    Conventions.
    - JavaScript numbers are modelled by [Z]; zoom levels, which are
      fractions, by [Q].
    - The object graph owned by the rendering engine is represented by its
      canonical JSON text without the [viewportTransform] key: on this
      representation [canvas.toJSON()] + [delete json.viewportTransform] +
      [JSON.stringify] is the identity, and [JSON.parse] + [loadFromJSON]
      installs the text as the new object graph.
    - [canvas.loadFromJSON(..)] returns a promise.  The canvas keeps the queue
      of loads that were started and have not resolved yet, each with the
      variable captured by the [.then] continuation of [restoreState].
      When a load resolves the engine takes the old objects off the canvas
      and puts the loaded ones on it, announcing each removal and addition
      to the listeners registered with [canvas.on]; what it announces is an
      argument of the resolution.
    - An array used as a stack has its most recent element last:
      [push] appends, [pop] drops the last element, [shift] drops the first.
    - [Date.now()] is an argument [now] of every operation that reads it. *)

From Stdlib Require Import ZArith String List Bool Lia QArith Qminmax.
Import ListNotations.
Open Scope Z_scope.

(** ** The canvas of the rendering engine *)

(** The 6-tuple [[a, b, c, d, e, f]]; [m4] and [m5] are the indices 4 and 5
    that the pan code updates. *)
Record Mat2D := mkMat2D { m0 : Z; m1 : Z; m2 : Z; m3 : Z; m4 : Z; m5 : Z }.

Definition identityMatrix : Mat2D := mkMat2D 1 0 0 1 0 0.

(** The part of the canvas that the modelled code reads and writes:
    the object graph, the viewport transform (the code guards against its
    absence), the result of [getActiveObject()], the [selection] flag,
    whether the element receiving touch input exists, and the pending
    loads. *)
Record FabricCanvas := mkCanvas {
  scene : string;
  viewportTransform : option Mat2D;
  activeObject : option string;
  selection : bool;
  upperCanvasEl : bool;
  pendingLoads : list (string * Mat2D)
}.

Definition setScene (s : string) (c : FabricCanvas) : FabricCanvas :=
  mkCanvas s (viewportTransform c) (activeObject c) (selection c) (upperCanvasEl c)
    (pendingLoads c).

Definition setViewportTransform (v : option Mat2D) (c : FabricCanvas) : FabricCanvas :=
  mkCanvas (scene c) v (activeObject c) (selection c) (upperCanvasEl c) (pendingLoads c).

Definition setSelection (b : bool) (c : FabricCanvas) : FabricCanvas :=
  mkCanvas (scene c) (viewportTransform c) (activeObject c) b (upperCanvasEl c)
    (pendingLoads c).

Definition setPendingLoads (p : list (string * Mat2D)) (c : FabricCanvas) : FabricCanvas :=
  mkCanvas (scene c) (viewportTransform c) (activeObject c) (selection c) (upperCanvasEl c) p.

(** [canvas.loadFromJSON(state).then(k)]: the load is only started. *)
Definition loadFromJSON (state : string) (captured : Mat2D) (c : FabricCanvas) : FabricCanvas :=
  setPendingLoads (pendingLoads c ++ [(state, captured)]) c.

(** What the canvas holds once the oldest pending load has installed its
    object graph and the continuation of [restoreState] has run
    [setViewportTransform(currentViewport)]. *)
Definition installLoad (c : FabricCanvas) : FabricCanvas :=
  match pendingLoads c with
  | [] => c
  | (state, captured) :: rest =>
      setViewportTransform (Some captured) (setScene state (setPendingLoads rest c))
  end.

(** [o ?? d] *)
Definition orDefault {A : Type} (o : option A) (d : A) : A :=
  match o with Some x => x | None => d end.

(** ** Stacks as JavaScript arrays *)

Section ArrayOps.
Context {A : Type}.

Definition push (x : A) (l : list A) : list A := l ++ [x].

Definition pop (l : list A) : list A := removelast l.

Definition shift (l : list A) : list A := tl l.

(** [l[l.length - 1]], [undefined] on the empty array. *)
Fixpoint top (l : list A) : option A :=
  match l with
  | [] => None
  | [x] => Some x
  | _ :: r => top r
  end.

End ArrayOps.

(** ** HistoryManager *)

Record HistoryEntry := mkEntry { state : string; timestamp : Z }.

(** The payload of the history-changed channel (types.ts, [HistoryState]). *)
Record HistoryState := mkHistoryState { hsCanUndo : bool; hsCanRedo : bool }.

Record HistoryManagerConfig := mkConfig { cfgMaxSize : option Z }.

Record HistoryManager := mkHistory {
  maxSize : Z;
  undoStack : list HistoryEntry;
  redoStack : list HistoryEntry;
  isUndoing : bool;
  isRedoing : bool;
  enabled : bool
}.

(** The engine together with its two collaborators: the canvas and the
    history-changed subject of the event manager, whose emissions are logged
    oldest first. *)
Record World := mkWorld {
  canvas : FabricCanvas;
  history : HistoryManager;
  historyChanged : list HistoryState
}.

Definition withCanvas (f : FabricCanvas -> FabricCanvas) (w : World) : World :=
  mkWorld (f (canvas w)) (history w) (historyChanged w).

Definition withHistory (f : HistoryManager -> HistoryManager) (w : World) : World :=
  mkWorld (canvas w) (f (history w)) (historyChanged w).

Definition setUndoStack (l : list HistoryEntry) (h : HistoryManager) : HistoryManager :=
  mkHistory (maxSize h) l (redoStack h) (isUndoing h) (isRedoing h) (enabled h).

Definition setRedoStack (l : list HistoryEntry) (h : HistoryManager) : HistoryManager :=
  mkHistory (maxSize h) (undoStack h) l (isUndoing h) (isRedoing h) (enabled h).

Definition setIsUndoing (b : bool) (h : HistoryManager) : HistoryManager :=
  mkHistory (maxSize h) (undoStack h) (redoStack h) b (isRedoing h) (enabled h).

Definition setIsRedoing (b : bool) (h : HistoryManager) : HistoryManager :=
  mkHistory (maxSize h) (undoStack h) (redoStack h) (isUndoing h) b (enabled h).

Definition setEnabled (b : bool) (h : HistoryManager) : HistoryManager :=
  mkHistory (maxSize h) (undoStack h) (redoStack h) (isUndoing h) (isRedoing h) b.

Definition canUndo (h : HistoryManager) : bool := (1 <? length (undoStack h))%nat.

Definition canRedo (h : HistoryManager) : bool := (0 <? length (redoStack h))%nat.

Definition getUndoStackSize (h : HistoryManager) : nat := length (undoStack h).

Definition getRedoStackSize (h : HistoryManager) : nat := length (redoStack h).

Definition isEnabled (h : HistoryManager) : bool := enabled h.

Definition emitHistoryChanged (s : HistoryState) (w : World) : World :=
  mkWorld (canvas w) (history w) (historyChanged w ++ [s]).

Definition emitCurrent (w : World) : World :=
  emitHistoryChanged (mkHistoryState (canUndo (history w)) (canRedo (history w))) w.

Definition getCanvasState (w : World) : string := scene (canvas w).

Definition saveState (now : Z) (w : World) : World :=
  if negb (enabled (history w)) then w
  else
    let currentState := getCanvasState w in
    let w1 := withHistory (setRedoStack []) w in
    let entry := mkEntry currentState now in
    let w2 := withHistory (fun h => setUndoStack (push entry (undoStack h)) h) w1 in
    let w3 :=
      if maxSize (history w2) <? Z.of_nat (length (undoStack (history w2)))
      then withHistory (fun h => setUndoStack (shift (undoStack h)) h) w2
      else w2 in
    emitCurrent w3.

(** [viewportTransform?.slice(0) || [1, 0, 0, 1, 0, 0]] *)
Definition currentViewport (c : FabricCanvas) : Mat2D :=
  match viewportTransform c with
  | Some v => v
  | None => identityMatrix
  end.

Definition restoreState (stateString : string) (w : World) : World :=
  withCanvas (fun c => loadFromJSON stateString (currentViewport c) c) w.

Definition undo (now : Z) (w : World) : World :=
  if negb (canUndo (history w)) then w
  else
    let w1 := withHistory (setIsUndoing true) w in
    let currentState := getCanvasState w1 in
    let w2 := withHistory
                (fun h => setRedoStack (push (mkEntry currentState now) (redoStack h)) h) w1 in
    let w3 := withHistory (fun h => setUndoStack (pop (undoStack h)) h) w2 in
    let w4 :=
      match top (undoStack (history w3)) with
      | Some previousEntry => restoreState (state previousEntry) w3
      | None => w3
      end in
    let w5 := withHistory (setIsUndoing false) w4 in
    emitCurrent w5.

Definition redo (now : Z) (w : World) : World :=
  if negb (canRedo (history w)) then w
  else
    let w1 := withHistory (setIsRedoing true) w in
    let nextEntry := top (redoStack (history w1)) in
    let w2 := withHistory (fun h => setRedoStack (pop (redoStack h)) h) w1 in
    let w3 :=
      match nextEntry with
      | Some next =>
          let currentState := getCanvasState w2 in
          let wa := withHistory
                      (fun h => setUndoStack (push (mkEntry currentState now) (undoStack h)) h)
                      w2 in
          restoreState (state next) wa
      | None => w2
      end in
    let w4 := withHistory (setIsRedoing false) w3 in
    emitCurrent w4.

Definition clearHistory (now : Z) (w : World) : World :=
  let w1 := withHistory (fun h => setRedoStack [] (setUndoStack [] h)) w in
  let w2 := saveState now w1 in
  emitHistoryChanged (mkHistoryState false false) w2.

Definition enable (w : World) : World := withHistory (setEnabled true) w.

Definition disable (w : World) : World := withHistory (setEnabled false) w.

Definition destroy (now : Z) (w : World) : World :=
  withHistory (setEnabled false) (clearHistory now w).

(** The three listeners registered by [initialize]; their bodies are the
    same. *)
Inductive MutationEvent := ObjectAdded | ObjectRemoved | ObjectModified.

Definition onMutation (ev : MutationEvent) (now : Z) (w : World) : World :=
  match ev with
  | ObjectAdded | ObjectRemoved | ObjectModified =>
      if negb (isUndoing (history w)) && negb (isRedoing (history w)) && enabled (history w)
      then saveState now w
      else w
  end.

(** [config.maxSize ?? 50] *)
Definition configuredMaxSize (cfg : HistoryManagerConfig) : Z :=
  orDefault (cfgMaxSize cfg) 50.

(** [new HistoryManager(canvas, eventManager, config)]: the fields take their
    initial values, then [initialize] saves the baseline and subscribes. *)
Definition construct (cfg : HistoryManagerConfig) (c : FabricCanvas) (now : Z) : World :=
  saveState now (mkWorld c (mkHistory (configuredMaxSize cfg) [] [] false false true) []).

(** ** Resolution of a load

    While the engine installs a loaded object graph it announces every
    object it removes and every object it adds.  A [Fired] is one such
    announcement: the object graph at that moment, the event, and the time.
    The listeners of [initialize] run on each of them, against that graph
    and with the flags as [undo()] or [redo()] left them; then the loaded
    graph is in place and the continuation of [restoreState] restores the
    viewport.  With no load pending nothing resolves. *)
Definition Fired : Type := (string * MutationEvent * Z)%type.

Definition fire (f : Fired) (w : World) : World :=
  onMutation (snd (fst f)) (snd f) (withCanvas (setScene (fst (fst f))) w).

Definition fireAll (fired : list Fired) (w : World) : World :=
  fold_left (fun acc f => fire f acc) fired w.

Definition resolveLoad (fired : list Fired) (w : World) : World :=
  match pendingLoads (canvas w) with
  | [] => w
  | _ :: _ => withCanvas installLoad (fireAll fired w)
  end.

(** ** Runs of the engine

    JavaScript runs each call and each listener to completion, so a run is a
    sequence of atomic actions: calls of the public methods, notifications
    delivered by the canvas, changes made to the canvas from outside the
    history manager, and resolutions of pending loads. *)
Inductive Action :=
| Notify (ev : MutationEvent) (now : Z)
| SceneChanged (s : string)
| ViewportChanged (v : option Mat2D)
| CallUndo (now : Z)
| CallRedo (now : Z)
| CallClearHistory (now : Z)
| CallEnable
| CallDisable
| CallDestroy (now : Z)
| LoadResolved (fired : list Fired).

Definition step (a : Action) (w : World) : World :=
  match a with
  | Notify ev now => onMutation ev now w
  | SceneChanged s => withCanvas (setScene s) w
  | ViewportChanged v => withCanvas (setViewportTransform v) w
  | CallUndo now => undo now w
  | CallRedo now => redo now w
  | CallClearHistory now => clearHistory now w
  | CallEnable => enable w
  | CallDisable => disable w
  | CallDestroy now => destroy now w
  | LoadResolved fired => resolveLoad fired w
  end.

Definition run (l : list Action) (w : World) : World :=
  fold_left (fun acc a => step a acc) l w.

(** A state of an engine configured with [cfg] is reachable when a run from
    a freshly constructed engine ends in it. *)
Definition Reachable (cfg : HistoryManagerConfig) (w : World) : Prop :=
  exists c now l, w = run l (construct cfg c now).

(** A burst of notifications, each with the time at which it is delivered. *)
Definition notifyAll (evs : list (MutationEvent * Z)) (w : World) : World :=
  run (map (fun p => Notify (fst p) (snd p)) evs) w.

(** Mutations of the object graph, each followed by its notification. *)
Definition mutations (ms : list (string * MutationEvent * Z)) : list Action :=
  flat_map (fun m => [SceneChanged (fst (fst m)); Notify (snd (fst m)) (snd m)]) ms.

(** A canvas with no objects, as the engine creates it. *)
Definition emptyCanvas : FabricCanvas :=
  mkCanvas "{}" (Some identityMatrix) None true true [].

(** Every action other than a call of [undo()] or [redo()]: none of them
    starts a load. *)
Definition quiet (a : Action) : bool :=
  match a with
  | CallUndo _ | CallRedo _ => false
  | _ => true
  end.

(** The number of loads that resolve on a run. *)
Fixpoint resolutions (l : list Action) : nat :=
  match l with
  | [] => 0%nat
  | LoadResolved _ :: r => S (resolutions r)
  | _ :: r => resolutions r
  end.

(** A restore is in flight while its load has not resolved. *)
Definition restoreInFlight (w : World) : bool :=
  match pendingLoads (canvas w) with
  | [] => false
  | _ :: _ => true
  end.

(** ** ViewportManager *)

(** [vpt[4] += dx; vpt[5] += dy] *)
Definition translate (dx dy : Z) (v : Mat2D) : Mat2D :=
  mkMat2D (m0 v) (m1 v) (m2 v) (m3 v) (m4 v + dx) (m5 v + dy).

Record Point := mkPoint { px : Z; py : Z }.

Definition pan (offset : Point) (c : FabricCanvas) : FabricCanvas :=
  match viewportTransform c with
  | None => c
  | Some vpt => setViewportTransform (Some (translate (px offset) (py offset) vpt)) c
  end.

(** ** InputManager: the three pan modes *)

Record InputConfig := mkInputConfig {
  cfgSpacebarPan : option bool;
  cfgMouseWheelPan : option bool;
  cfgTouchPan : option bool;
  cfgTouchPanMaxJump : option Z
}.

(** A listener field is [true] when it holds a registered closure and
    [false] when it is [null]; [hammer] likewise for the gesture manager. *)
Record InputManager := mkInput {
  touchPanMaxJump : Z;
  spacebarPanEnabled : bool;
  spacebarPressed : bool;
  mouseDown : bool;
  lastPosX : Z;
  lastPosY : Z;
  mouseWheelListener : bool;
  hammer : bool;
  touchPanLastX : Z;
  touchPanLastY : Z
}.

Definition InputWorld : Type := InputManager * FabricCanvas.

Definition setSpacebar (en pressed down : bool) (im : InputManager) : InputManager :=
  mkInput (touchPanMaxJump im) en pressed down (lastPosX im) (lastPosY im)
    (mouseWheelListener im) (hammer im) (touchPanLastX im) (touchPanLastY im).

Definition setLastPos (x y : Z) (im : InputManager) : InputManager :=
  mkInput (touchPanMaxJump im) (spacebarPanEnabled im) (spacebarPressed im) (mouseDown im)
    x y (mouseWheelListener im) (hammer im) (touchPanLastX im) (touchPanLastY im).

Definition setMouseWheelListener (b : bool) (im : InputManager) : InputManager :=
  mkInput (touchPanMaxJump im) (spacebarPanEnabled im) (spacebarPressed im) (mouseDown im)
    (lastPosX im) (lastPosY im) b (hammer im) (touchPanLastX im) (touchPanLastY im).

Definition setHammer (b : bool) (im : InputManager) : InputManager :=
  mkInput (touchPanMaxJump im) (spacebarPanEnabled im) (spacebarPressed im) (mouseDown im)
    (lastPosX im) (lastPosY im) (mouseWheelListener im) b (touchPanLastX im)
    (touchPanLastY im).

Definition setTouchPanLast (x y : Z) (im : InputManager) : InputManager :=
  mkInput (touchPanMaxJump im) (spacebarPanEnabled im) (spacebarPressed im) (mouseDown im)
    (lastPosX im) (lastPosY im) (mouseWheelListener im) (hammer im) x y.

(** *** Spacebar + drag *)

Definition spacebarKeydownListener (isSpace : bool) (w : InputWorld) : InputWorld :=
  let (im, c) := w in
  if isSpace then (setSpacebar (spacebarPanEnabled im) true (mouseDown im) im, c) else w.

Definition spacebarKeyupListener (isSpace : bool) (w : InputWorld) : InputWorld :=
  let (im, c) := w in
  if isSpace
  then (setLastPos 0 0 (setSpacebar (spacebarPanEnabled im) false (mouseDown im) im), c)
  else w.

Definition mouseDownListener (w : InputWorld) : InputWorld :=
  let (im, c) := w in
  (setSpacebar (spacebarPanEnabled im) (spacebarPressed im) true im, c).

Definition mouseUpListener (w : InputWorld) : InputWorld :=
  let (im, c) := w in
  (setLastPos 0 0 (setSpacebar (spacebarPanEnabled im) (spacebarPressed im) false im), c).

Definition mouseMoveListener (movementX movementY : Z) (w : InputWorld) : InputWorld :=
  let (im, c) := w in
  if negb (spacebarPressed im) || negb (mouseDown im) then w
  else
    match viewportTransform c with
    | None => w
    | Some vpt =>
        let vpt' := translate (movementX + lastPosX im) (movementY + lastPosY im) vpt in
        (setLastPos movementX movementY im, setViewportTransform (Some vpt') c)
    end.

Definition enableSpacebarPan (w : InputWorld) : InputWorld :=
  let (im, c) := w in
  if spacebarPanEnabled im then w
  else (setSpacebar true (spacebarPressed im) (mouseDown im) im, c).


(** *** Wheel *)

Definition wheelListener (deltaX deltaY : Z) (w : InputWorld) : InputWorld :=
  let (im, c) := w in
  match viewportTransform c with
  | None => w
  | Some vpt =>
      let vpt' := translate (deltaX + lastPosX im) (deltaY + lastPosY im) vpt in
      (setLastPos deltaX deltaY im, setViewportTransform (Some vpt') c)
  end.

Definition enableMouseWheelPan (w : InputWorld) : InputWorld :=
  let (im, c) := w in (setMouseWheelListener true im, c).

Definition disableMouseWheelPan (w : InputWorld) : InputWorld :=
  let (im, c) := w in
  if mouseWheelListener im then (setMouseWheelListener false im, c) else w.

(** *** Two-finger touch *)

Definition panstart (center : Point) (w : InputWorld) : InputWorld :=
  let (im, c) := w in
  (setTouchPanLast (px center) (py center) im, setSelection false c).

Definition panmove (center : Point) (w : InputWorld) : InputWorld :=
  let (im, c) := w in
  match activeObject c with
  | Some _ => w
  | None =>
      let currentX := px center in
      let currentY := py center in
      let xChange := currentX - touchPanLastX im in
      let yChange := currentY - touchPanLastY im in
      let c' :=
        if (Z.abs xChange <=? touchPanMaxJump im) && (Z.abs yChange <=? touchPanMaxJump im)
        then pan (mkPoint xChange yChange) c
        else c in
      (setTouchPanLast currentX currentY im, c')
  end.

Definition panend (w : InputWorld) : InputWorld :=
  let (im, c) := w in (im, setSelection true c).

Definition enableTouchPan (w : InputWorld) : InputWorld :=
  let (im, c) := w in
  if hammer im then w
  else if negb (upperCanvasEl c) then w
  else (setHammer true im, c).

Definition disableTouchPan (w : InputWorld) : InputWorld :=
  let (im, c) := w in
  if hammer im then (setHammer false im, c) else w.

(** [new InputManager(..)]: defaults, then the modes the configuration asks
    for are enabled. *)
Definition constructInput (cfg : InputConfig) (c : FabricCanvas) : InputWorld :=
  let im := mkInput (orDefault (cfgTouchPanMaxJump cfg) 200)
                    false false false 0 0 false false 0 0 in
  let w0 := (im, c) in
  let w1 := if orDefault (cfgSpacebarPan cfg) true then enableSpacebarPan w0 else w0 in
  let w2 := if orDefault (cfgMouseWheelPan cfg) true then enableMouseWheelPan w1 else w1 in
  if orDefault (cfgTouchPan cfg) true then enableTouchPan w2 else w2.

(** Device events; each reaches the listener registered for it, if any. *)
Inductive InputEvent :=
| KeyDown (isSpace : bool)
| KeyUp (isSpace : bool)
| MouseDown
| MouseUp
| MouseMove (movementX movementY : Z)
| MouseWheel (deltaX deltaY : Z)
| PanStart (center : Point)
| PanMove (center : Point)
| PanEnd.

Definition dispatch (ev : InputEvent) (w : InputWorld) : InputWorld :=
  match ev with
  | KeyDown sp => if spacebarPanEnabled (fst w) then spacebarKeydownListener sp w else w
  | KeyUp sp => if spacebarPanEnabled (fst w) then spacebarKeyupListener sp w else w
  | MouseDown => if spacebarPanEnabled (fst w) then mouseDownListener w else w
  | MouseUp => if spacebarPanEnabled (fst w) then mouseUpListener w else w
  | MouseMove mx my => if spacebarPanEnabled (fst w) then mouseMoveListener mx my w else w
  | MouseWheel dx dy => if mouseWheelListener (fst w) then wheelListener dx dy w else w
  | PanStart p => if hammer (fst w) then panstart p w else w
  | PanMove p => if hammer (fst w) then panmove p w else w
  | PanEnd => if hammer (fst w) then panend w else w
  end.

Definition dispatchAll (evs : list InputEvent) (w : InputWorld) : InputWorld :=
  fold_left (fun acc ev => dispatch ev acc) evs w.

(** The translation components [(e, f)] of the viewport transform. *)
Definition translation (c : FabricCanvas) : option (Z * Z) :=
  match viewportTransform c with
  | Some v => Some (m4 v, m5 v)
  | None => None
  end.

(** ** Further vocabulary for runs and gestures *)

(** What [emitHistoryChanged] is given after a save, an undo or a redo. *)
Definition currentHistoryState (h : HistoryManager) : HistoryState :=
  mkHistoryState (canUndo h) (canRedo h).

(** The last emission on the history-changed channel tells the truth. *)
Definition Synced (w : World) : Prop :=
  top (historyChanged w) = Some (currentHistoryState (history w)).

(** The calls of the public methods and the notifications, as opposed to
    what happens to the canvas from outside the history manager. *)
Definition engineAction (a : Action) : bool :=
  match a with
  | SceneChanged _ | ViewportChanged _ | LoadResolved _ => false
  | _ => true
  end.

(** Undo, then redo, each followed by the resolution of its load. *)
Definition undoThenRedo (t1 : Z) (f1 : list Fired) (t2 : Z) (f2 : list Fired) : list Action :=
  [CallUndo t1; LoadResolved f1; CallRedo t2; LoadResolved f2].

(** Pointer moves of one drag, given by their [(movementX, movementY)]. *)
Definition moves (ms : list (Z * Z)) : list InputEvent :=
  map (fun m => MouseMove (fst m) (snd m)) ms.

Definition sumX (ms : list (Z * Z)) : Z := fold_right (fun m acc => fst m + acc) 0 ms.

Definition sumY (ms : list (Z * Z)) : Z := fold_right (fun m acc => snd m + acc) 0 ms.

(** Successive centroids of one two-finger gesture. *)
Definition panMoves (ps : list Point) : list InputEvent := map PanMove ps.

(** Every step of the path [p :: ps] passes the jump test of [panmove]. *)
Fixpoint smooth (jump : Z) (p : Point) (ps : list Point) : bool :=
  match ps with
  | [] => true
  | q :: r =>
      (Z.abs (px q - px p) <=? jump) && (Z.abs (py q - py p) <=? jump) && smooth jump q r
  end.

Definition isWheel (ev : InputEvent) : bool :=
  match ev with MouseWheel _ _ => true | _ => false end.


(** Events that none of the three modes turns into a pan on their own:
    no wheel event, no pan move, no press of the space key. *)
Definition noPanIntent (ev : InputEvent) : bool :=
  match ev with
  | MouseWheel _ _ | PanMove _ | KeyDown true => false
  | _ => true
  end.

(** Wheel events, given by their [(deltaX, deltaY)]. *)
Definition wheels (ds : list (Z * Z)) : list InputEvent :=
  map (fun d => MouseWheel (fst d) (snd d)) ds.

(** The entries that a run of recorded mutations appends. *)
Definition entriesOf (ms : list (string * MutationEvent * Z)) : list HistoryEntry :=
  map (fun m => mkEntry (fst (fst m)) (snd m)) ms.

(** ** Configuration (config.ts) and its way into the managers

    A property of an object literal is absent, present with the value
    [undefined], or present with a value; spreading [{...base, ...over}]
    takes every present property of [over], also an [undefined] one.  Only
    the sections that reach the input and history managers are modelled;
    after [mergeConfig] each of their properties is present, possibly
    [undefined] ([None]). *)
Inductive Property (A : Type) : Type :=
| Absent
| Undefined
| Given (a : A).

Arguments Absent {A}.
Arguments Undefined {A}.
Arguments Given {A} a.

Definition spread {A : Type} (base : option A) (over : Property A) : option A :=
  match over with
  | Absent => base
  | Undefined => None
  | Given a => Some a
  end.

(** [x ?? y] *)
Definition nullish {A : Type} (x y : option A) : option A :=
  match x with
  | Some _ => x
  | None => y
  end.

Record MouseConfig := mkMouseConfig {
  mouseSpacebarPan : Property bool;
  mouseWheelPan : Property bool
}.

Record TouchConfig := mkTouchConfig {
  touchEnabled : Property bool;
  touchPan : Property bool;
  touchMaxJumpDistance : Property Z
}.

Record HistoryConfig := mkHistoryConfig {
  historyEnabled : Property bool;
  historyMaxSize : Property Z
}.

Record CanvasConfig := mkCanvasConfig {
  cfgMouse : Property MouseConfig;
  cfgTouch : Property TouchConfig;
  cfgHistory : Property HistoryConfig
}.

Record MergedMouse := mkMergedMouse {
  mSpacebarPan : option bool;
  mWheelPan : option bool
}.

Record MergedTouch := mkMergedTouch {
  mEnabled : option bool;
  mPan : option bool;
  mMaxJumpDistance : option Z
}.

Record MergedHistory := mkMergedHistory {
  mHistoryEnabled : option bool;
  mMaxSize : option Z
}.

Record MergedConfig := mkMergedConfig {
  mergedMouse : MergedMouse;
  mergedTouch : MergedTouch;
  mergedHistory : MergedHistory
}.

(** [{...DEFAULT_CANVAS_CONFIG.mouse, ...userConfig.mouse}]: spreading an
    absent or [undefined] section adds nothing. *)
Definition mergeMouse (u : Property MouseConfig) : MergedMouse :=
  match u with
  | Given m =>
      mkMergedMouse (spread (Some true) (mouseSpacebarPan m))
                    (spread (Some true) (mouseWheelPan m))
  | _ => mkMergedMouse (Some true) (Some true)
  end.

Definition mergeTouch (u : Property TouchConfig) : MergedTouch :=
  match u with
  | Given t =>
      mkMergedTouch (spread (Some true) (touchEnabled t))
                    (spread (Some true) (touchPan t))
                    (spread (Some 200) (touchMaxJumpDistance t))
  | _ => mkMergedTouch (Some true) (Some true) (Some 200)
  end.

Definition mergeHistory (u : Property HistoryConfig) : MergedHistory :=
  match u with
  | Given h =>
      mkMergedHistory (spread (Some true) (historyEnabled h))
                      (spread (Some 50) (historyMaxSize h))
  | _ => mkMergedHistory (Some true) (Some 50)
  end.

Definition mergeConfig (userConfig : CanvasConfig) : MergedConfig :=
  mkMergedConfig (mergeMouse (cfgMouse userConfig))
                 (mergeTouch (cfgTouch userConfig))
                 (mergeHistory (cfgHistory userConfig)).

(** The object literals that [FabricCanvas.initialize] passes to
    [new InputManager] and [new HistoryManager]. *)
Definition inputConfigOf (m : MergedConfig) : InputConfig :=
  mkInputConfig (mSpacebarPan (mergedMouse m))
                (mWheelPan (mergedMouse m))
                (nullish (mPan (mergedTouch m)) (mEnabled (mergedTouch m)))
                (mMaxJumpDistance (mergedTouch m)).

Definition historyConfigOf (m : MergedConfig) : HistoryManagerConfig :=
  mkConfig (mMaxSize (mergedHistory m)).

Definition createInput (userConfig : CanvasConfig) (c : FabricCanvas) : InputWorld :=
  constructInput (inputConfigOf (mergeConfig userConfig)) c.

Definition createHistory (userConfig : CanvasConfig) (c : FabricCanvas) (now : Z) : World :=
  construct (historyConfigOf (mergeConfig userConfig)) c now.

(** [configure(config)]: [this.config = mergeConfig({...this.config, ...config})].
    A section of the current configuration, seen as the operand of a
    spread, has all its properties present. *)
Definition present {A : Type} (o : option A) : Property A :=
  match o with
  | Some a => Given a
  | None => Undefined
  end.

Definition overlay {S : Type} (current : S) (update : Property S) : Property S :=
  match update with
  | Absent => Given current
  | _ => update
  end.

Definition configure (current : MergedConfig) (update : CanvasConfig) : MergedConfig :=
  mergeConfig
    (mkCanvasConfig
       (overlay (mkMouseConfig (present (mSpacebarPan (mergedMouse current)))
                               (present (mWheelPan (mergedMouse current))))
                (cfgMouse update))
       (overlay (mkTouchConfig (present (mEnabled (mergedTouch current)))
                               (present (mPan (mergedTouch current)))
                               (present (mMaxJumpDistance (mergedTouch current))))
                (cfgTouch update))
       (overlay (mkHistoryConfig (present (mHistoryEnabled (mergedHistory current)))
                                 (present (mMaxSize (mergedHistory current))))
                (cfgHistory update))).

(** ** ViewportManager: zoom

    A zoom level is a fraction, so it is a rational number here.  The canvas
    side of [setZoom] is the level handed to [canvas.setZoom]; the
    zoom-changed channel is logged oldest first. *)
Record ViewportManager := mkViewportManager { minZoom : Q; maxZoom : Q }.

Record ZoomState := mkZoomState { canvasZoom : Q; zoomChanged : list Q }.

(** [Math.max(this.minZoom, Math.min(this.maxZoom, level))] *)
Definition constrainedZoom (vm : ViewportManager) (level : Q) : Q :=
  Qmax (minZoom vm) (Qmin (maxZoom vm) level).

Definition setZoom (vm : ViewportManager) (level : Q) (z : ZoomState) : ZoomState :=
  mkZoomState (constrainedZoom vm level) (zoomChanged z ++ [constrainedZoom vm level]).

Definition resetZoom (vm : ViewportManager) (z : ZoomState) : ZoomState :=
  setZoom vm 1%Q z.

(** ** EventManager (managers/event-manager.ts)

    The ten subjects, what is sent on them, and what reaches the event
    manager: the canvas events it listens to (an event may come without
    [e.target], a selection event without [e.selected] or [e.deselected])
    and the calls of its [emit...] methods.  A trace lists what reached a
    live event manager, each input with the time at which it arrived, in
    order of arrival. *)
Inductive Subject :=
| objectAddedSubject
| objectRemovedSubject
| objectModifiedSubject
| objectLockedSubject
| objectUnlockedSubject
| selectionChangedSubject
| historyChangedSubject
| zoomChangedSubject
| beforeRenderSubject
| textChangedSubject.

Inductive Payload :=
| PObject (object : string)
| PSelection (selected deselected : list string)
| PHistory (s : HistoryState)
| PZoom (zoom : Q)
| PVoid.

Inductive BusInput :=
| CanvasObjectAdded (target : option string)
| CanvasObjectRemoved (target : option string)
| CanvasObjectModified (target : option string)
| CanvasSelectionCreated (selected : option (list string))
| CanvasSelectionUpdated (selected deselected : option (list string))
| CanvasSelectionCleared (deselected : option (list string))
| CanvasBeforeRender
| CanvasTextChanged (target : option string)
| EmitHistoryChanged (s : HistoryState)
| EmitZoomChanged (zoom : Q)
| EmitObjectLocked (object : string)
| EmitObjectUnlocked (object : string).



Definition onTarget (sub : Subject) (target : option string) : option (Subject * Payload) :=
  match target with
  | Some o => Some (sub, PObject o)
  | None => None
  end.

(** The [next] that an input leads to, if any: the handlers of
    [initializeEventListeners] and the [emit...] methods. *)
Definition next (i : BusInput) : option (Subject * Payload) :=
  match i with
  | CanvasObjectAdded target => onTarget objectAddedSubject target
  | CanvasObjectRemoved target => onTarget objectRemovedSubject target
  | CanvasObjectModified target => onTarget objectModifiedSubject target
  | CanvasSelectionCreated selected =>
      Some (selectionChangedSubject, PSelection (orDefault selected []) [])
  | CanvasSelectionUpdated selected deselected =>
      Some (selectionChangedSubject,
            PSelection (orDefault selected []) (orDefault deselected []))
  | CanvasSelectionCleared deselected =>
      Some (selectionChangedSubject, PSelection [] (orDefault deselected []))
  | CanvasBeforeRender => Some (beforeRenderSubject, PVoid)
  | CanvasTextChanged target => onTarget textChangedSubject target
  | EmitHistoryChanged st => Some (historyChangedSubject, PHistory st)
  | EmitZoomChanged z => Some (zoomChangedSubject, PZoom z)
  | EmitObjectLocked o => Some (objectLockedSubject, PObject o)
  | EmitObjectUnlocked o => Some (objectUnlockedSubject, PObject o)
  end.










(** *** Sample states

    [sampleWorld]: a fresh engine with the default configuration on an empty
    canvas, then one object added and the viewport panned.
    [sampleUndone]: the same after [undo()] and the resolution of its load,
    during which the rectangle is announced as removed, with tracking
    switched off around the two.
    [sampleInput]: a fresh input manager with the default configuration. *)
Definition sampleWorld : World :=
  run [SceneChanged "{rect}"; Notify ObjectAdded 1;
       ViewportChanged (Some (mkMat2D 1 0 0 1 40 (-7)))]
      (construct (mkConfig None) emptyCanvas 0).

Definition sampleUndone : World :=
  run [CallDisable; CallUndo 2; LoadResolved [("{}"%string, ObjectRemoved, 3)]; CallEnable]
      sampleWorld.

Definition sampleInput : InputWorld :=
  constructInput (mkInputConfig None None None None) emptyCanvas.

(** ** Arrays *)

Lemma top_push {A : Type} (x : A) (l : list A) : top (push x l) = Some x.
Proof.
  unfold push. induction l as [|y l IH]; [reflexivity|].
  simpl. destruct (l ++ [x]) eqn:E; [destruct l; discriminate|exact IH].
Qed.

Lemma length_push {A : Type} (x : A) (l : list A) :
  length (push x l) = S (length l).
Proof. unfold push. rewrite length_app. simpl. lia. Qed.

Lemma length_pop {A : Type} (l : list A) : length (pop l) = pred (length l).
Proof.
  unfold pop. induction l as [|x l IH]; [reflexivity|].
  destruct l as [|y l]; [reflexivity|].
  change (removelast (x :: y :: l)) with (x :: removelast (y :: l)).
  simpl length in *. rewrite IH. reflexivity.
Qed.

Lemma length_shift {A : Type} (l : list A) : length (shift l) = pred (length l).
Proof. destruct l; reflexivity. Qed.

Lemma top_some {A : Type} (l : list A) :
  (0 < length l)%nat -> exists x, top l = Some x.
Proof.
  induction l as [|x l IH]; simpl; [lia|]. intros _.
  destruct l as [|y l]; [now exists x|]. apply IH. simpl. lia.
Qed.

Lemma pop_push {A : Type} (x : A) (l : list A) : pop (push x l) = l.
Proof. unfold pop, push. apply removelast_last. Qed.

Lemma push_pop_top {A : Type} (l : list A) (x : A) :
  top l = Some x -> push x (pop l) = l.
Proof.
  unfold push, pop. induction l as [|y l IH]; [discriminate|].
  destruct l as [|z l].
  - simpl. intros [= ->]. reflexivity.
  - intros H. change (removelast (y :: z :: l)) with (y :: removelast (z :: l)).
    simpl app. f_equal. apply IH. exact H.
Qed.

(** ** HistoryManager: queries *)

(** C7. [canUndo()] is false exactly when the undo stack holds at most one
    entry, and [canRedo()] is false exactly when the redo stack is empty;
    this holds in every state of the engine, reachable or not. *)
Theorem canUndo_canRedo_consistency (h : HistoryManager) :
  (canUndo h = false <-> (getUndoStackSize h <= 1)%nat) /\
  (canRedo h = false <-> getRedoStackSize h = 0%nat).
Proof.
  unfold canUndo, canRedo, getUndoStackSize, getRedoStackSize. split.
  - rewrite Nat.ltb_ge. reflexivity.
  - rewrite Nat.ltb_ge. lia.
Qed.

(** ** HistoryManager: saveState *)

Lemma saveState_disabled now w :
  enabled (history w) = false -> saveState now w = w.
Proof. unfold saveState. intros ->. reflexivity. Qed.

Lemma saveState_redoStack now w :
  enabled (history w) = true -> redoStack (history (saveState now w)) = [].
Proof.
  unfold saveState. intros ->. simpl.
  destruct (_ <? _); reflexivity.
Qed.

Lemma saveState_undoStack now w :
  enabled (history w) = true ->
  undoStack (history (saveState now w)) =
    let pushed := push (mkEntry (getCanvasState w) now) (undoStack (history w)) in
    if maxSize (history w) <? Z.of_nat (length pushed) then shift pushed else pushed.
Proof.
  unfold saveState. intros ->. simpl.
  destruct (_ <? _); reflexivity.
Qed.

Lemma saveState_canvas now w : canvas (saveState now w) = canvas w.
Proof.
  unfold saveState. destruct (negb _); [reflexivity|]. simpl.
  destruct (_ <? _); reflexivity.
Qed.

Lemma saveState_config now w :
  maxSize (history (saveState now w)) = maxSize (history w) /\
  isUndoing (history (saveState now w)) = isUndoing (history w) /\
  isRedoing (history (saveState now w)) = isRedoing (history w) /\
  enabled (history (saveState now w)) = enabled (history w).
Proof.
  unfold saveState. destruct (negb _); [auto|]. simpl.
  destruct (_ <? _); simpl; auto.
Qed.

Lemma saveState_historyChanged now w :
  enabled (history w) = true ->
  historyChanged (saveState now w) =
    historyChanged w ++
      [mkHistoryState (canUndo (history (saveState now w)))
                      (canRedo (history (saveState now w)))].
Proof.
  unfold saveState. intros ->. simpl.
  destruct (_ <? _); reflexivity.
Qed.

(** The listeners save exactly when both reentrancy flags are clear and
    tracking is enabled; otherwise they leave everything as it is. *)
Lemma onMutation_guard ev now w :
  onMutation ev now w =
    if negb (isUndoing (history w)) && negb (isRedoing (history w)) && enabled (history w)
    then saveState now w else w.
Proof. destruct ev; reflexivity. Qed.

Lemma onMutation_not_idle ev now w :
  isUndoing (history w) = true \/ isRedoing (history w) = true \/ enabled (history w) = false ->
  onMutation ev now w = w.
Proof.
  rewrite onMutation_guard. intros [-> | [-> | ->]]; simpl.
  - reflexivity.
  - now rewrite andb_false_r.
  - now rewrite andb_false_r.
Qed.

(** C3. When a mutation notification triggers [saveState()] (both reentrancy
    flags clear, tracking enabled), the redo stack is empty afterwards,
    whatever it held before. *)
Theorem saveState_invalidates_redo ev now w :
  isUndoing (history w) = false ->
  isRedoing (history w) = false ->
  isEnabled (history w) = true ->
  onMutation ev now w = saveState now w /\
  getRedoStackSize (history (onMutation ev now w)) = 0%nat.
Proof.
  unfold isEnabled, getRedoStackSize. intros Hu Hr He.
  rewrite onMutation_guard, Hu, Hr, He. simpl. split; [reflexivity|].
  now rewrite saveState_redoStack.
Qed.

(** ** HistoryManager: clearHistory and destroy *)

Lemma clearHistory_redoStack now w : redoStack (history (clearHistory now w)) = [].
Proof.
  unfold clearHistory. simpl.
  destruct (enabled (history w)) eqn:E.
  - rewrite saveState_redoStack; [reflexivity|exact E].
  - rewrite saveState_disabled; [reflexivity|exact E].
Qed.

Lemma clearHistory_undoStack now w :
  undoStack (history (clearHistory now w)) =
    if enabled (history w)
    then (if maxSize (history w) <? 1 then [] else [mkEntry (getCanvasState w) now])
    else [].
Proof.
  unfold clearHistory. simpl.
  destruct (enabled (history w)) eqn:E.
  - rewrite saveState_undoStack; [|exact E]. simpl.
    destruct (maxSize (history w) <? 1); reflexivity.
  - rewrite saveState_disabled; [reflexivity|exact E].
Qed.

Lemma clearHistory_config now w :
  maxSize (history (clearHistory now w)) = maxSize (history w) /\
  isUndoing (history (clearHistory now w)) = isUndoing (history w) /\
  isRedoing (history (clearHistory now w)) = isRedoing (history w) /\
  enabled (history (clearHistory now w)) = enabled (history w).
Proof.
  unfold clearHistory. simpl.
  match goal with |- context [saveState now ?x] =>
    destruct (saveState_config now x) as (A & B & C & D) end.
  rewrite A, B, C, D. simpl. auto.
Qed.

Lemma clearHistory_canvas now w : canvas (clearHistory now w) = canvas w.
Proof. unfold clearHistory. simpl. now rewrite saveState_canvas. Qed.

(** C10. With tracking disabled, [clearHistory()] leaves both stacks empty
    and emits exactly one history-changed event, [{false, false}]; in any
    state, the undo stack after [clearHistory()] is either empty or the one
    fresh baseline snapshot, and the latter only if tracking was enabled at
    the time of the call. *)
Theorem clearHistory_disabled_leaves_no_baseline now w :
  (isEnabled (history w) = false ->
     getUndoStackSize (history (clearHistory now w)) = 0%nat /\
     getRedoStackSize (history (clearHistory now w)) = 0%nat /\
     historyChanged (clearHistory now w) =
       historyChanged w ++ [mkHistoryState false false]) /\
  (undoStack (history (clearHistory now w)) = [] \/
   (isEnabled (history w) = true /\
    undoStack (history (clearHistory now w)) = [mkEntry (getCanvasState w) now])) /\
  (isEnabled (history w) = true -> 1 <= maxSize (history w) ->
     undoStack (history (clearHistory now w)) = [mkEntry (getCanvasState w) now]).
Proof.
  unfold isEnabled, getUndoStackSize, getRedoStackSize.
  rewrite clearHistory_undoStack, clearHistory_redoStack.
  split; [|split].
  - intros E. rewrite E. repeat split.
    unfold clearHistory. rewrite saveState_disabled; [reflexivity|exact E].
  - destruct (enabled (history w)); [|now left].
    destruct (maxSize (history w) <? 1); [now left|now right].
  - intros -> Hm. destruct (Z.ltb_spec (maxSize (history w)) 1); [lia|reflexivity].
Qed.

Lemma destroy_history now w :
  history (destroy now w) = setEnabled false (history (clearHistory now w)).
Proof. reflexivity. Qed.

Lemma notifyAll_disabled evs w :
  enabled (history w) = false -> notifyAll evs w = w.
Proof.
  unfold notifyAll, run. induction evs as [|[ev t] evs IH]; intros E; [reflexivity|].
  simpl. rewrite onMutation_not_idle by auto. apply IH, E.
Qed.

(** C6 (amended). After [destroy()] the redo stack is empty, the undo stack
    holds at most one entry (none if tracking was disabled at the call, the
    reseeded baseline snapshot if it was enabled and [maxSize >= 1]),
    tracking is disabled, and mutation notifications delivered afterwards
    change nothing. *)
Theorem destroy_spec now w :
  getRedoStackSize (history (destroy now w)) = 0%nat /\
  (getUndoStackSize (history (destroy now w)) <= 1)%nat /\
  (isEnabled (history w) = false -> getUndoStackSize (history (destroy now w)) = 0%nat) /\
  (isEnabled (history w) = true -> 1 <= maxSize (history w) ->
     undoStack (history (destroy now w)) = [mkEntry (getCanvasState w) now]) /\
  isEnabled (history (destroy now w)) = false /\
  (forall evs, notifyAll evs (destroy now w) = destroy now w).
Proof.
  unfold isEnabled, getUndoStackSize, getRedoStackSize.
  change (undoStack (history (destroy now w)))
    with (undoStack (history (clearHistory now w))).
  change (redoStack (history (destroy now w)))
    with (redoStack (history (clearHistory now w))).
  rewrite clearHistory_undoStack, clearHistory_redoStack.
  repeat split.
  - destruct (enabled (history w)); [|simpl; lia].
    destruct (maxSize (history w) <? 1); simpl; lia.
  - intros ->. reflexivity.
  - intros -> Hm. destruct (Z.ltb_spec (maxSize (history w)) 1); [lia|reflexivity].
  - intros evs. apply notifyAll_disabled. reflexivity.
Qed.

(** ** HistoryManager: undo and redo *)

Lemma undo_not_available now w : canUndo (history w) = false -> undo now w = w.
Proof. unfold undo. intros ->. reflexivity. Qed.

Lemma redo_not_available now w : canRedo (history w) = false -> redo now w = w.
Proof. unfold redo. intros ->. reflexivity. Qed.

Lemma canUndo_previous h :
  canUndo h = true -> exists prev, top (pop (undoStack h)) = Some prev.
Proof.
  unfold canUndo. rewrite Nat.ltb_lt. intros H.
  apply top_some. rewrite length_pop. lia.
Qed.

Lemma canRedo_next h :
  canRedo h = true -> exists next, top (redoStack h) = Some next.
Proof. unfold canRedo. rewrite Nat.ltb_lt. apply top_some. Qed.

Lemma undo_history now w :
  canUndo (history w) = true ->
  history (undo now w) =
    mkHistory (maxSize (history w)) (pop (undoStack (history w)))
      (push (mkEntry (getCanvasState w) now) (redoStack (history w)))
      false (isRedoing (history w)) (enabled (history w)).
Proof.
  intros H. unfold undo. rewrite H. simpl.
  destruct (top (pop (undoStack (history w)))); reflexivity.
Qed.

Lemma undo_canvas now w prev :
  canUndo (history w) = true ->
  top (pop (undoStack (history w))) = Some prev ->
  canvas (undo now w) = loadFromJSON (state prev) (currentViewport (canvas w)) (canvas w).
Proof.
  intros H T. unfold undo. rewrite H. simpl. rewrite T. reflexivity.
Qed.

Lemma redo_history now w :
  canRedo (history w) = true ->
  history (redo now w) =
    mkHistory (maxSize (history w))
      (push (mkEntry (getCanvasState w) now) (undoStack (history w)))
      (pop (redoStack (history w)))
      (isUndoing (history w)) false (enabled (history w)).
Proof.
  intros H. unfold redo. rewrite H. simpl.
  destruct (canRedo_next _ H) as [next ->]. reflexivity.
Qed.

Lemma redo_canvas now w next :
  canRedo (history w) = true ->
  top (redoStack (history w)) = Some next ->
  canvas (redo now w) = loadFromJSON (state next) (currentViewport (canvas w)) (canvas w).
Proof.
  intros H T. unfold redo. rewrite H. simpl. rewrite T. reflexivity.
Qed.

(** Notifications leave the canvas alone. *)
Lemma onMutation_canvas ev now w : canvas (onMutation ev now w) = canvas w.
Proof.
  rewrite onMutation_guard. destruct (_ && _); [apply saveState_canvas|reflexivity].
Qed.

(** ** Resolution of a load *)

Lemma fire_canvas f w : canvas (fire f w) = setScene (fst (fst f)) (canvas w).
Proof. unfold fire. now rewrite onMutation_canvas. Qed.

Lemma installLoad_setScene s c :
  pendingLoads c <> [] -> installLoad (setScene s c) = installLoad c.
Proof.
  intros N. unfold installLoad. simpl.
  destruct (pendingLoads c) as [|[st v] rest]; [contradiction|reflexivity].
Qed.

Lemma fireAll_pending fired w :
  pendingLoads (canvas (fireAll fired w)) = pendingLoads (canvas w) /\
  installLoad (canvas (fireAll fired w)) =
    match pendingLoads (canvas w) with
    | [] => canvas (fireAll fired w)
    | _ :: _ => installLoad (canvas w)
    end.
Proof.
  unfold fireAll. revert w. induction fired as [|f fired IH]; intros w.
  - simpl. split; [reflexivity|].
    unfold installLoad. destruct (pendingLoads (canvas w)); reflexivity.
  - simpl. destruct (IH (fire f w)) as (P & I). rewrite P, I, fire_canvas. simpl.
    split; [reflexivity|].
    destruct (pendingLoads (canvas w)) eqn:E; [reflexivity|].
    apply installLoad_setScene. rewrite E. discriminate.
Qed.

(** Whatever the engine announces on the way, a resolution leaves on the
    canvas the loaded object graph and the captured viewport. *)
Lemma resolveLoad_canvas fired w :
  pendingLoads (canvas w) <> [] ->
  canvas (resolveLoad fired w) = installLoad (canvas w).
Proof.
  intros N. unfold resolveLoad.
  destruct (fireAll_pending fired w) as (_ & I).
  destruct (pendingLoads (canvas w)) eqn:E; [contradiction|].
  unfold withCanvas. cbn [canvas]. exact I.
Qed.

Lemma resolveLoad_pending fired w :
  pendingLoads (canvas (resolveLoad fired w)) = tl (pendingLoads (canvas w)).
Proof.
  destruct (pendingLoads (canvas w)) as [|[st v] rest] eqn:E.
  - unfold resolveLoad. rewrite E. exact E.
  - rewrite resolveLoad_canvas by (rewrite E; discriminate).
    unfold installLoad. rewrite E. reflexivity.
Qed.

Lemma fireAll_disabled fired w :
  enabled (history w) = false ->
  history (fireAll fired w) = history w /\
  historyChanged (fireAll fired w) = historyChanged w.
Proof.
  unfold fireAll. revert w. induction fired as [|f fired IH]; intros w E; [auto|].
  simpl. assert (F : fire f w = withCanvas (setScene (fst (fst f))) w).
  { unfold fire. apply onMutation_not_idle. auto. }
  rewrite F. apply (IH (withCanvas (setScene (fst (fst f))) w)). exact E.
Qed.

(** With tracking switched off a resolution does not reach the stacks. *)
Lemma resolveLoad_disabled fired w :
  enabled (history w) = false ->
  history (resolveLoad fired w) = history w /\
  historyChanged (resolveLoad fired w) = historyChanged w.
Proof.
  intros E. unfold resolveLoad. destruct (pendingLoads (canvas w)); [auto|].
  unfold withCanvas. cbn [history historyChanged]. now apply fireAll_disabled.
Qed.

(** On a run without [undo()] and [redo()], the pending loads are consumed
    oldest first and nothing is added to them. *)
Lemma run_quiet l w :
  forallb quiet l = true ->
  pendingLoads (canvas (run l w)) = skipn (resolutions l) (pendingLoads (canvas w)).
Proof.
  unfold run. revert w. induction l as [|a l IH]; intros w F; [reflexivity|].
  simpl in F. apply andb_true_iff in F. destruct F as (B & F).
  cbn [fold_left]. rewrite (IH (step a w) F).
  destruct a; try discriminate B; cbn [step resolutions]; try reflexivity.
  - now rewrite onMutation_canvas.
  - now rewrite clearHistory_canvas.
  - change (canvas (destroy now w)) with (canvas (clearHistory now w)).
    now rewrite clearHistory_canvas.
  - rewrite resolveLoad_pending.
    destruct (pendingLoads (canvas w)); [now rewrite !skipn_nil|reflexivity].
Qed.

Lemma skipn_length_app {A : Type} (l1 l2 : list A) : skipn (length l1) (l1 ++ l2) = l2.
Proof. induction l1 as [|x l1 IH]; [reflexivity|exact IH]. Qed.

(** ** The two entries on top of a stack *)

Lemma two_on_top {A : Type} (l : list A) :
  (1 < length l)%nat -> exists older a b, l = older ++ [a; b].
Proof.
  intros L. destruct (exists_last (l := l)) as (l1 & b & ->).
  { intros ->. simpl in L. lia. }
  destruct (exists_last (l := l1)) as (older & a & ->).
  { intros ->. simpl in L. lia. }
  exists older, a, b. now rewrite <- app_assoc.
Qed.

Lemma pop_two {A : Type} (older : list A) (a b : A) : pop (older ++ [a; b]) = older ++ [a].
Proof.
  change (older ++ [a; b]) with (older ++ [a] ++ [b]). rewrite app_assoc.
  apply (pop_push b (older ++ [a])).
Qed.

Lemma top_one {A : Type} (older : list A) (a : A) : top (older ++ [a]) = Some a.
Proof. apply (top_push a older). Qed.

Lemma pop_one {A : Type} (older : list A) (a : A) : pop (older ++ [a]) = older.
Proof. apply (pop_push a older). Qed.

Lemma two_on_top_inj {A : Type} (l1 l2 : list A) (a1 b1 a2 b2 : A) :
  l1 ++ [a1; b1] = l2 ++ [a2; b2] -> l1 = l2 /\ a1 = a2 /\ b1 = b2.
Proof.
  change (l1 ++ [a1; b1]) with (l1 ++ [a1] ++ [b1]).
  change (l2 ++ [a2; b2]) with (l2 ++ [a2] ++ [b2]).
  rewrite !app_assoc. intros E.
  apply app_inj_tail in E. destruct E as (E & ->).
  apply app_inj_tail in E. destruct E as (-> & ->). auto.
Qed.

(** C1. If [canUndo()] is false, [undo()] changes nothing.  Otherwise the
    undo stack ends with a prior entry and the current one; [undo()] drops
    the current entry, appends an entry holding the live scene and the time
    of the call to the redo stack, and starts the load of the prior entry's
    state, without changing the scene or the viewport yet.  When that load
    resolves (after the loads started before it, whatever the engine
    announces while loading and whatever happens in between short of
    another [undo()] or [redo()]) the scene is the prior entry's state and
    the viewport transform is the one the canvas had at the call of
    [undo()] (the identity matrix if it had none). *)
Theorem undo_spec now w :
  (canUndo (history w) = false -> undo now w = w) /\
  (canUndo (history w) = true ->
   exists older prev cur,
     undoStack (history w) = older ++ [prev; cur] /\
     undoStack (history (undo now w)) = older ++ [prev] /\
     redoStack (history (undo now w)) =
       redoStack (history w) ++ [mkEntry (scene (canvas w)) now] /\
     pendingLoads (canvas (undo now w)) =
       pendingLoads (canvas w) ++
         [(state prev,
           match viewportTransform (canvas w) with
           | Some v => v
           | None => mkMat2D 1 0 0 1 0 0
           end)] /\
     scene (canvas (undo now w)) = scene (canvas w) /\
     viewportTransform (canvas (undo now w)) = viewportTransform (canvas w) /\
     (forall l fired,
        forallb quiet l = true ->
        resolutions l = length (pendingLoads (canvas w)) ->
        let w' := step (LoadResolved fired) (run l (undo now w)) in
        scene (canvas w') = state prev /\
        viewportTransform (canvas w') =
          Some (match viewportTransform (canvas w) with
                | Some v => v
                | None => mkMat2D 1 0 0 1 0 0
                end) /\
        pendingLoads (canvas w') = [])).
Proof.
  split; [apply undo_not_available|].
  intros H.
  destruct (two_on_top (undoStack (history w))) as (older & prev & cur & E).
  { unfold canUndo in H. now apply Nat.ltb_lt in H. }
  exists older, prev, cur. split; [exact E|].
  assert (T : top (pop (undoStack (history w))) = Some prev).
  { rewrite E, pop_two. apply top_one. }
  rewrite (undo_history _ _ H), (undo_canvas _ _ _ H T).
  cbn [undoStack redoStack]. rewrite E, pop_two.
  do 5 (split; [reflexivity|]).
  intros l fired F K.
  assert (L : pendingLoads (canvas (run l (undo now w)))
              = [(state prev, currentViewport (canvas w))]).
  { rewrite (run_quiet l (undo now w) F), (undo_canvas _ _ _ H T), K.
    unfold loadFromJSON. cbn [pendingLoads setPendingLoads]. apply skipn_length_app. }
  cbn [step].
  rewrite resolveLoad_canvas by (rewrite L; discriminate).
  unfold installLoad. rewrite L. repeat split.
Qed.

(** X2. With tracking switched off, undo followed by redo, each with its
    load resolved, brings the scene back whatever the engine announces
    while loading: first to the state of the entry below the top of the
    undo stack, then to the scene that was live when [undo()] was
    called. *)
Lemma undo_redo_inverse now t f1 f2 w older prev cur :
  isEnabled (history w) = false ->
  undoStack (history w) = older ++ [prev; cur] ->
  pendingLoads (canvas w) = [] ->
  scene (canvas (step (LoadResolved f1) (undo now w))) = state prev /\
  scene (canvas (step (LoadResolved f2)
                   (redo t (step (LoadResolved f1) (undo now w))))) = scene (canvas w).
Proof.
  unfold isEnabled. intros En E P.
  assert (H : canUndo (history w) = true).
  { unfold canUndo. rewrite E, length_app. apply Nat.ltb_lt. simpl. lia. }
  assert (T : top (pop (undoStack (history w))) = Some prev).
  { rewrite E, pop_two. apply top_one. }
  set (w1 := step (LoadResolved f1) (undo now w)).
  assert (PU : pendingLoads (canvas (undo now w)) =
               [(state prev, currentViewport (canvas w))]).
  { rewrite (undo_canvas _ _ _ H T). unfold loadFromJSON. simpl. now rewrite P. }
  assert (C1 : canvas w1 =
               setViewportTransform (Some (currentViewport (canvas w)))
                 (setScene (state prev) (setPendingLoads [] (canvas w)))).
  { subst w1. cbn [step]. rewrite resolveLoad_canvas by (rewrite PU; discriminate).
    unfold installLoad. rewrite PU, (undo_canvas _ _ _ H T). reflexivity. }
  assert (EU : enabled (history (undo now w)) = false).
  { rewrite (undo_history _ _ H). exact En. }
  assert (H1 : history w1 = history (undo now w)).
  { subst w1. cbn [step]. now apply resolveLoad_disabled. }
  assert (R1 : redoStack (history w1) =
               push (mkEntry (getCanvasState w) now) (redoStack (history w))).
  { rewrite H1, (undo_history _ _ H). reflexivity. }
  assert (CR : canRedo (history w1) = true).
  { unfold canRedo. rewrite R1, length_push. reflexivity. }
  assert (TR : top (redoStack (history w1)) = Some (mkEntry (getCanvasState w) now)).
  { rewrite R1. apply top_push. }
  split.
  - rewrite C1. reflexivity.
  - assert (PR : pendingLoads (canvas (redo t w1)) =
                 [(scene (canvas w), currentViewport (canvas w1))]).
    { rewrite (redo_canvas _ _ _ CR TR), C1. reflexivity. }
    cbn [step]. rewrite resolveLoad_canvas by (rewrite PR; discriminate).
    unfold installLoad. rewrite PR. reflexivity.
Qed.

(** ** HistoryManager: the stack bound *)

Definition Inv (w : World) : Prop :=
  isUndoing (history w) = false /\
  isRedoing (history w) = false /\
  Z.of_nat (length (undoStack (history w)) + length (redoStack (history w)))
    <= maxSize (history w).

Lemma saveState_Inv now w :
  0 <= maxSize (history w) ->
  Inv w ->
  Inv (saveState now w) /\
  Z.of_nat (length (undoStack (history (saveState now w)))) =
    if enabled (history w)
    then Z.min (Z.of_nat (length (undoStack (history w))) + 1) (maxSize (history w))
    else Z.of_nat (length (undoStack (history w))).
Proof.
  unfold Inv. intros M (U & R & B).
  destruct (saveState_config now w) as (Em & Eu & Er & _).
  rewrite Em, Eu, Er.
  destruct (enabled (history w)) eqn:E.
  - rewrite saveState_undoStack, saveState_redoStack by exact E. simpl.
    destruct (Z.ltb_spec (maxSize (history w))
                (Z.of_nat (length (push (mkEntry (getCanvasState w) now)
                                        (undoStack (history w)))))) as [L|L];
      rewrite ?length_shift, length_push in *; simpl length;
      repeat split; auto; lia.
  - rewrite saveState_disabled by exact E. auto.
Qed.

Lemma onMutation_maxSize ev now w :
  maxSize (history (onMutation ev now w)) = maxSize (history w).
Proof.
  rewrite onMutation_guard. destruct (_ && _); [apply saveState_config|reflexivity].
Qed.

Lemma onMutation_Inv ev now w :
  0 <= maxSize (history w) -> Inv w -> Inv (onMutation ev now w).
Proof.
  intros M I. rewrite onMutation_guard. destruct (_ && _); [|exact I].
  now apply saveState_Inv.
Qed.

Lemma fireAll_maxSize fired w :
  maxSize (history (fireAll fired w)) = maxSize (history w).
Proof.
  unfold fireAll. revert w. induction fired as [|f fired IH]; intros w; [reflexivity|].
  simpl. rewrite IH. unfold fire. now rewrite onMutation_maxSize.
Qed.

Lemma fireAll_Inv fired w :
  0 <= maxSize (history w) -> Inv w -> Inv (fireAll fired w).
Proof.
  unfold fireAll. revert w. induction fired as [|f fired IH]; intros w M I; [exact I|].
  simpl. apply IH.
  - unfold fire. now rewrite onMutation_maxSize.
  - unfold fire. apply onMutation_Inv; [exact M|exact I].
Qed.

Lemma resolveLoad_maxSize fired w :
  maxSize (history (resolveLoad fired w)) = maxSize (history w).
Proof.
  unfold resolveLoad. destruct (pendingLoads (canvas w)); [reflexivity|].
  apply fireAll_maxSize.
Qed.

Lemma resolveLoad_Inv fired w :
  0 <= maxSize (history w) -> Inv w -> Inv (resolveLoad fired w).
Proof.
  intros M I. unfold resolveLoad. destruct (pendingLoads (canvas w)); [exact I|].
  exact (fireAll_Inv fired w M I).
Qed.

Lemma step_maxSize a w : maxSize (history (step a w)) = maxSize (history w).
Proof.
  destruct a; cbn [step]; try reflexivity.
  - rewrite onMutation_guard. destruct (_ && _); [apply saveState_config|reflexivity].
  - destruct (canUndo (history w)) eqn:H.
    + now rewrite undo_history.
    + now rewrite undo_not_available.
  - destruct (canRedo (history w)) eqn:H.
    + now rewrite redo_history.
    + now rewrite redo_not_available.
  - apply clearHistory_config.
  - change (maxSize (history (destroy now w)))
      with (maxSize (history (clearHistory now w))).
    apply clearHistory_config.
  - apply resolveLoad_maxSize.
Qed.

Lemma step_Inv a w : 0 <= maxSize (history w) -> Inv w -> Inv (step a w).
Proof.
  intros M I. destruct a; cbn [step]; try exact I.
  - rewrite onMutation_guard. destruct (_ && _); [|exact I].
    now apply saveState_Inv.
  - destruct I as (U & R & B). destruct (canUndo (history w)) eqn:H.
    + unfold Inv. rewrite undo_history by exact H. simpl.
      unfold canUndo in H. apply Nat.ltb_lt in H.
      rewrite length_pop, length_push. repeat split; [exact R|lia].
    + rewrite undo_not_available by exact H. now repeat split.
  - destruct I as (U & R & B). destruct (canRedo (history w)) eqn:H.
    + unfold Inv. rewrite redo_history by exact H. simpl.
      unfold canRedo in H. apply Nat.ltb_lt in H.
      rewrite length_pop, length_push. repeat split; [exact U|lia].
    + rewrite redo_not_available by exact H. now repeat split.
  - destruct I as (U & R & B). unfold Inv.
    destruct (clearHistory_config now w) as (Em & Eu & Er & _).
    rewrite Em, Eu, Er, clearHistory_undoStack, clearHistory_redoStack.
    repeat split; [exact U|exact R|].
    destruct (enabled (history w)); [|simpl; lia].
    destruct (Z.ltb_spec (maxSize (history w)) 1); simpl; lia.
  - destruct I as (U & R & B). unfold Inv.
    rewrite destroy_history. unfold setEnabled.
    cbn [maxSize undoStack redoStack isUndoing isRedoing].
    destruct (clearHistory_config now w) as (Em & Eu & Er & _).
    rewrite Em, Eu, Er, clearHistory_undoStack, clearHistory_redoStack.
    repeat split; [exact U|exact R|].
    destruct (enabled (history w)); [|simpl; lia].
    destruct (Z.ltb_spec (maxSize (history w)) 1); simpl; lia.
  - now apply resolveLoad_Inv.
Qed.

Lemma run_app l1 l2 w : run (l1 ++ l2) w = run l2 (run l1 w).
Proof. unfold run. apply fold_left_app. Qed.

Lemma run_maxSize l w : maxSize (history (run l w)) = maxSize (history w).
Proof.
  unfold run. revert w. induction l as [|a l IH]; intros w; [reflexivity|].
  simpl. rewrite IH. apply step_maxSize.
Qed.

Lemma run_Inv l w : 0 <= maxSize (history w) -> Inv w -> Inv (run l w).
Proof.
  unfold run. revert w. induction l as [|a l IH]; intros w M I; [exact I|].
  simpl. apply IH; [rewrite step_maxSize; exact M|now apply step_Inv].
Qed.

Lemma construct_maxSize cfg c now :
  maxSize (history (construct cfg c now)) = configuredMaxSize cfg.
Proof. unfold construct. apply saveState_config. Qed.

Lemma construct_Inv cfg c now :
  0 <= configuredMaxSize cfg -> Inv (construct cfg c now).
Proof.
  intros M. unfold construct. apply saveState_Inv; [exact M|].
  unfold Inv. simpl. auto.
Qed.

Lemma Reachable_Inv cfg w :
  0 <= configuredMaxSize cfg ->
  Reachable cfg w -> Inv w /\ maxSize (history w) = configuredMaxSize cfg.
Proof.
  intros M (c & now & l & ->). split.
  - apply run_Inv; [rewrite construct_maxSize; exact M|now apply construct_Inv].
  - now rewrite run_maxSize, construct_maxSize.
Qed.

(** In every reachable state both reentrancy flags are clear: they are set
    and cleared again within one call of [undo()] or [redo()]. *)
Lemma Reachable_idle cfg w :
  0 <= configuredMaxSize cfg ->
  Reachable cfg w -> isUndoing (history w) = false /\ isRedoing (history w) = false.
Proof.
  intros M R. destruct (Reachable_Inv _ _ M R) as ((U & Rd & _) & _). auto.
Qed.

Lemma mutations_size ms w :
  0 <= maxSize (history w) ->
  Inv w -> enabled (history w) = true ->
  Z.of_nat (length (undoStack (history (run (mutations ms) w)))) =
    Z.min (Z.of_nat (length (undoStack (history w))) + Z.of_nat (length ms))
          (maxSize (history w)).
Proof.
  revert w. induction ms as [|[[s ev] t] ms IH]; intros w M I E.
  - destruct I as (_ & _ & B). simpl. lia.
  - change (mutations ((s, ev, t) :: ms))
      with ([SceneChanged s; Notify ev t] ++ mutations ms).
    rewrite run_app. set (w1 := run [SceneChanged s; Notify ev t] w).
    assert (W1 : w1 = saveState t (withCanvas (setScene s) w)).
    { subst w1. unfold run. simpl. rewrite onMutation_guard. simpl.
      destruct I as (-> & -> & _). rewrite E. reflexivity. }
    assert (I0 : Inv (withCanvas (setScene s) w)) by exact I.
    destruct (saveState_Inv t (withCanvas (setScene s) w) M I0) as (I1 & L1).
    simpl in L1. rewrite E in L1. rewrite <- W1 in I1, L1.
    assert (M1 : maxSize (history w1) = maxSize (history w)).
    { rewrite W1. destruct (saveState_config t (withCanvas (setScene s) w))
        as (-> & _). reflexivity. }
    assert (E1 : enabled (history w1) = true).
    { rewrite W1. destruct (saveState_config t (withCanvas (setScene s) w))
        as (_ & _ & _ & ->). exact E. }
    rewrite IH; [|rewrite M1; exact M|exact I1|exact E1].
    rewrite M1, L1. destruct I as (_ & _ & B).
    change (length ((s, ev, t) :: ms)) with (S (length ms)). lia.
Qed.

(** C2. With a non-negative [maxSize] (50 unless configured), in every
    reachable state the undo stack holds at most [maxSize] entries; a
    [saveState()] on a full stack drops the oldest entry from the front and
    appends the new one; and after at least [maxSize] recorded mutations,
    starting from any reachable state with tracking enabled,
    [getUndoStackSize()] is exactly [maxSize]. *)
Theorem undo_stack_bound cfg :
  0 <= configuredMaxSize cfg ->
  configuredMaxSize (mkConfig None) = 50 /\
  (forall w, Reachable cfg w ->
     Z.of_nat (getUndoStackSize (history w)) <= configuredMaxSize cfg) /\
  (forall w now oldest rest,
     isEnabled (history w) = true ->
     undoStack (history w) = oldest :: rest ->
     Z.of_nat (getUndoStackSize (history w)) = maxSize (history w) ->
     undoStack (history (saveState now w)) =
       rest ++ [mkEntry (getCanvasState w) now]) /\
  (forall w ms, Reachable cfg w -> isEnabled (history w) = true ->
     configuredMaxSize cfg <= Z.of_nat (length ms) ->
     Z.of_nat (getUndoStackSize (history (run (mutations ms) w))) =
       configuredMaxSize cfg).
Proof.
  intros M. unfold getUndoStackSize, isEnabled.
  split; [reflexivity|]. split; [|split].
  - intros w R. destruct (Reachable_Inv _ _ M R) as ((_ & _ & B) & <-). lia.
  - intros w now oldest rest E St L.
    rewrite saveState_undoStack by exact E. rewrite St in *. cbv zeta.
    rewrite length_push.
    destruct (Z.ltb_spec (maxSize (history w)) (Z.of_nat (S (length (oldest :: rest)))));
      [reflexivity|lia].
  - intros w ms R E L. destruct (Reachable_Inv _ _ M R) as (I & Mx).
    rewrite mutations_size; [|rewrite Mx; exact M|exact I|exact E].
    rewrite Mx. destruct I as (_ & _ & B). lia.
Qed.

(** ** HistoryManager: the reentrancy flags and the asynchronous restore *)

(** [undo()] clears [isUndoing] before it returns, while the load it
    started is still pending. *)
Lemma undo_returns_idle_with_restore_in_flight now w :
  canUndo (history w) = true ->
  restoreInFlight (undo now w) = true /\ isUndoing (history (undo now w)) = false.
Proof.
  intros H. destruct (canUndo_previous _ H) as [prev T].
  unfold restoreInFlight.
  rewrite (undo_history _ _ H), (undo_canvas _ _ _ H T). simpl.
  split; [|reflexivity]. destruct (pendingLoads (canvas w)); reflexivity.
Qed.

Lemma redo_returns_idle_with_restore_in_flight now w :
  canRedo (history w) = true ->
  restoreInFlight (redo now w) = true /\ isRedoing (history (redo now w)) = false.
Proof.
  intros H. destruct (canRedo_next _ H) as [next T].
  unfold restoreInFlight.
  rewrite (redo_history _ _ H), (redo_canvas _ _ _ H T). simpl.
  split; [|reflexivity]. destruct (pendingLoads (canvas w)); reflexivity.
Qed.

(** Hence a notification delivered before the load resolves passes the
    guard of the listeners: it is saved and it empties the redo stack that
    [undo()] has just filled. *)
Lemma notification_after_undo_is_saved cfg ev now t w :
  0 <= configuredMaxSize cfg ->
  Reachable cfg w ->
  canUndo (history w) = true ->
  enabled (history w) = true ->
  onMutation ev t (undo now w) = saveState t (undo now w) /\
  redoStack (history (onMutation ev t (undo now w))) = [].
Proof.
  intros M R H E. destruct (Reachable_idle _ _ M R) as (_ & Rd).
  assert (G : onMutation ev t (undo now w) = saveState t (undo now w)).
  { rewrite onMutation_guard, (undo_history _ _ H). simpl. rewrite Rd, E. reflexivity. }
  split; [exact G|]. rewrite G. apply saveState_redoStack.
  rewrite (undo_history _ _ H). exact E.
Qed.

(** C4. A run on which the claim fails: one object is added, [undo()] is
    called, and a mutation notification arrives while the restore started
    by [undo()] is still in flight.  [undo()] has already cleared
    [isUndoing], so the listener saves a new entry and empties the redo
    stack. *)
Theorem notification_during_restore_is_recorded :
  let w0 := construct (mkConfig None) emptyCanvas 0 in
  let w1 := run [SceneChanged "{rect}"; Notify ObjectAdded 1] w0 in
  let w2 := step (CallUndo 2) w1 in
  let w3 := step (Notify ObjectAdded 3) w2 in
  undoStack (history w1) = [mkEntry "{}" 0; mkEntry "{rect}" 1] /\
  restoreInFlight w2 = true /\
  pendingLoads (canvas w2) = [("{}"%string, identityMatrix)] /\
  isUndoing (history w2) = false /\
  undoStack (history w2) = [mkEntry "{}" 0] /\
  redoStack (history w2) = [mkEntry "{rect}" 2] /\
  restoreInFlight w3 = true /\
  undoStack (history w3) = [mkEntry "{}" 0; mkEntry "{rect}" 3] /\
  redoStack (history w3) = [].
Proof. vm_compute. repeat split. Qed.

(** ** InputManager: wheel pan *)

Lemma wheelListener_some im c v deltaX deltaY :
  viewportTransform c = Some v ->
  wheelListener deltaX deltaY (im, c) =
    (setLastPos deltaX deltaY im,
     setViewportTransform
       (Some (translate (deltaX + lastPosX im) (deltaY + lastPosY im) v)) c).
Proof. unfold wheelListener. intros ->. reflexivity. Qed.

(** C5 (amended). With a viewport transform present, the wheel handler adds
    [(deltaX + lastPosX, deltaY + lastPosY)] to the translation [(e, f)],
    which is exactly the event's delta when [lastPosX = lastPosY = 0], and
    then stores the event's delta in [lastPosX]/[lastPosY].  These are the
    fields that the spacebar-drag handler reads: a drag move that follows
    adds the wheel's delta as well.  The touch mode's [touchPanLastX/Y] is
    left alone. *)
Theorem wheel_pan_spec im c v deltaX deltaY :
  viewportTransform c = Some v ->
  translation (snd (wheelListener deltaX deltaY (im, c))) =
    Some (m4 v + (deltaX + lastPosX im), m5 v + (deltaY + lastPosY im)) /\
  (lastPosX im = 0 -> lastPosY im = 0 ->
     translation (snd (wheelListener deltaX deltaY (im, c))) =
       Some (m4 v + deltaX, m5 v + deltaY)) /\
  lastPosX (fst (wheelListener deltaX deltaY (im, c))) = deltaX /\
  lastPosY (fst (wheelListener deltaX deltaY (im, c))) = deltaY /\
  touchPanLastX (fst (wheelListener deltaX deltaY (im, c))) = touchPanLastX im /\
  touchPanLastY (fst (wheelListener deltaX deltaY (im, c))) = touchPanLastY im /\
  (forall movementX movementY,
     spacebarPressed im = true -> mouseDown im = true ->
     translation
       (snd (mouseMoveListener movementX movementY (wheelListener deltaX deltaY (im, c)))) =
       Some (m4 v + (deltaX + lastPosX im) + (movementX + deltaX),
             m5 v + (deltaY + lastPosY im) + (movementY + deltaY))).
Proof.
  intros V. rewrite (wheelListener_some _ _ _ _ _ V). simpl.
  repeat split.
  - intros -> ->. unfold translation. simpl. now rewrite !Z.add_0_r.
  - intros mx my P D. unfold mouseMoveListener. simpl. rewrite P, D. reflexivity.
Qed.

(** ** InputManager: touch pan *)

Lemma pan_some offset c v :
  viewportTransform c = Some v ->
  viewportTransform (pan offset c) = Some (translate (px offset) (py offset) v).
Proof. unfold pan. intros ->. reflexivity. Qed.

(** C8. On a two-finger pan move with no object selected, when both [|dx|]
    and [|dy|] of the centroid are at most [touchPanMaxJump] the viewport
    transform keeps its components a, b, c, d and has dx added to e and dy
    added to f; when either exceeds the bound the canvas is left untouched.
    With a bound of 200 a delta of (250, 0) leaves the transform as it is
    and a delta of (150, 150) adds 150 to e and to f. *)
Theorem touch_pan_jump_suppression im c v center :
  activeObject c = None ->
  viewportTransform c = Some v ->
  let xChange := px center - touchPanLastX im in
  let yChange := py center - touchPanLastY im in
  (Z.abs xChange <= touchPanMaxJump im /\ Z.abs yChange <= touchPanMaxJump im ->
     viewportTransform (snd (panmove center (im, c))) =
       Some (mkMat2D (m0 v) (m1 v) (m2 v) (m3 v) (m4 v + xChange) (m5 v + yChange))) /\
  (~ (Z.abs xChange <= touchPanMaxJump im /\ Z.abs yChange <= touchPanMaxJump im) ->
     snd (panmove center (im, c)) = c) /\
  (touchPanMaxJump im = 200 -> xChange = 250 -> yChange = 0 ->
     viewportTransform (snd (panmove center (im, c))) = Some v) /\
  (touchPanMaxJump im = 200 -> xChange = 150 -> yChange = 150 ->
     viewportTransform (snd (panmove center (im, c))) =
       Some (mkMat2D (m0 v) (m1 v) (m2 v) (m3 v) (m4 v + 150) (m5 v + 150))).
Proof.
  intros A V xChange yChange. unfold panmove. rewrite A. simpl.
  fold xChange yChange.
  destruct (Z.leb_spec (Z.abs xChange) (touchPanMaxJump im)) as [X|X];
    destruct (Z.leb_spec (Z.abs yChange) (touchPanMaxJump im)) as [Y|Y]; simpl;
    (split; [|split; [|split]]);
    try (intros [? ?]; lia); try (intros N; exfalso; apply N; split; lia);
    try (intros; lia); try reflexivity;
    try (intros _; apply pan_some; exact V);
    try (intros J Ex Ey; rewrite Ex, Ey in *; simpl in *; first [lia | exact V]).
  intros J Ex Ey. rewrite (pan_some _ _ _ V). simpl. now rewrite Ex, Ey.
Qed.

(** ** The statements at sample states *)

Lemma undo_spec_witness :
  canUndo (history sampleWorld) = true /\
  undoStack (history sampleWorld) = [mkEntry "{}" 0; mkEntry "{rect}" 1] /\
  undoStack (history (undo 2 sampleWorld)) = [mkEntry "{}" 0] /\
  redoStack (history (undo 2 sampleWorld)) = [mkEntry "{rect}" 2] /\
  scene (canvas (undo 2 sampleWorld)) = "{rect}"%string /\
  scene (canvas (step (LoadResolved [("{}"%string, ObjectRemoved, 4)])
                   (run [ViewportChanged None; Notify ObjectRemoved 3]
                        (undo 2 sampleWorld)))) = "{}"%string /\
  viewportTransform
    (canvas (step (LoadResolved [("{}"%string, ObjectRemoved, 4)])
               (run [ViewportChanged None; Notify ObjectRemoved 3]
                    (undo 2 sampleWorld)))) = Some (mkMat2D 1 0 0 1 40 (-7)).
Proof.
  split; [reflexivity|]. split; [reflexivity|].
  destruct (proj2 (undo_spec 2 sampleWorld) eq_refl)
    as (older & prev & cur & E & U & R & _ & Sc & _ & F).
  change (undoStack (history sampleWorld))
    with ([] ++ [mkEntry "{}" 0; mkEntry "{rect}" 1]) in E.
  apply two_on_top_inj in E. destruct E as (<- & <- & <-).
  destruct (F [ViewportChanged None; Notify ObjectRemoved 3]
              [("{}"%string, ObjectRemoved, 4)] eq_refl eq_refl) as (S1 & V1 & _).
  split; [exact U|]. split; [exact R|]. split; [exact Sc|].
  split; [exact S1|exact V1].
Defined.

Lemma undo_stack_bound_witness :
  0 <= configuredMaxSize (mkConfig (Some 2)) /\
  Z.of_nat
    (getUndoStackSize
       (history
          (run (mutations [("{a}"%string, ObjectAdded, 1);
                           ("{a,b}"%string, ObjectAdded, 2);
                           ("{b}"%string, ObjectRemoved, 3)])
               (construct (mkConfig (Some 2)) emptyCanvas 0)))) =
    configuredMaxSize (mkConfig (Some 2)).
Proof.
  assert (M : 0 <= configuredMaxSize (mkConfig (Some 2))) by (vm_compute; discriminate).
  split; [exact M|].
  destruct (undo_stack_bound (mkConfig (Some 2)) M) as (_ & _ & _ & N).
  apply N.
  - exists emptyCanvas, 0, []. reflexivity.
  - reflexivity.
  - vm_compute. discriminate.
Defined.

Lemma saveState_invalidates_redo_witness :
  getRedoStackSize (history sampleUndone) = 1%nat /\
  getRedoStackSize (history (onMutation ObjectModified 5 sampleUndone)) = 0%nat.
Proof.
  split; [reflexivity|].
  exact (proj2 (saveState_invalidates_redo ObjectModified 5 sampleUndone
                  eq_refl eq_refl eq_refl)).
Defined.

Lemma wheel_pan_spec_witness :
  viewportTransform (snd sampleInput) = Some identityMatrix /\
  translation (snd (wheelListener 3 4 sampleInput)) = Some (3, 4).
Proof.
  split; [reflexivity|].
  exact (proj1 (wheel_pan_spec (fst sampleInput) (snd sampleInput) identityMatrix 3 4
                  eq_refl)).
Defined.

Lemma destroy_spec_witness :
  isEnabled (history sampleWorld) = true /\
  undoStack (history (destroy 9 sampleWorld)) = [mkEntry "{rect}" 9] /\
  isEnabled (history (destroy 9 sampleWorld)) = false.
Proof.
  split; [reflexivity|].
  destruct (destroy_spec 9 sampleWorld) as (_ & _ & _ & B & D & _).
  split; [|exact D]. apply B; [reflexivity|vm_compute; discriminate].
Defined.

Lemma touch_pan_jump_suppression_witness :
  activeObject (snd sampleInput) = None /\
  viewportTransform (snd sampleInput) = Some (mkMat2D 1 0 0 1 0 0) /\
  touchPanMaxJump (fst sampleInput) = 200 /\
  viewportTransform (snd (panmove (mkPoint 250 0) sampleInput)) =
    Some (mkMat2D 1 0 0 1 0 0) /\
  viewportTransform (snd (panmove (mkPoint 150 150) sampleInput)) =
    Some (mkMat2D 1 0 0 1 150 150).
Proof.
  split; [reflexivity|]. split; [reflexivity|]. split; [reflexivity|]. split.
  - destruct (touch_pan_jump_suppression (fst sampleInput) (snd sampleInput)
                identityMatrix (mkPoint 250 0) eq_refl eq_refl) as (_ & _ & J & _).
    apply J; reflexivity.
  - destruct (touch_pan_jump_suppression (fst sampleInput) (snd sampleInput)
                identityMatrix (mkPoint 150 150) eq_refl eq_refl) as (_ & _ & _ & J).
    apply J; reflexivity.
Defined.

Lemma clearHistory_disabled_leaves_no_baseline_witness :
  isEnabled (history (disable sampleWorld)) = false /\
  getUndoStackSize (history (disable sampleWorld)) = 2%nat /\
  getUndoStackSize (history (clearHistory 9 (disable sampleWorld))) = 0%nat /\
  getRedoStackSize (history (clearHistory 9 (disable sampleWorld))) = 0%nat /\
  historyChanged (clearHistory 9 (disable sampleWorld)) =
    historyChanged (disable sampleWorld) ++ [mkHistoryState false false].
Proof.
  split; [reflexivity|]. split; [reflexivity|].
  exact (proj1 (clearHistory_disabled_leaves_no_baseline 9 (disable sampleWorld)) eq_refl).
Defined.

(** ** Where the stated claims fail *)

(** C5, as stated, fails.  On a fresh input manager a wheel event (3, 0)
    followed by a wheel event (5, 0) moves the translation by 11, not by
    3 + 5; and a spacebar drag of (1, 0) after the wheel event (3, 0) moves
    it by 1 + 3, although the same drag without the wheel event moves it by
    1: the wheel handler writes the [lastPosX] that the drag handler
    reads. *)
Lemma wheel_pan_is_not_exact_and_shares_lastPos :
  let w1 := dispatch (MouseWheel 3 0) sampleInput in
  let w2 := dispatch (MouseWheel 5 0) w1 in
  let drag := [KeyDown true; MouseDown; MouseMove 1 0] in
  translation (snd sampleInput) = Some (0, 0) /\
  translation (snd w1) = Some (3, 0) /\
  translation (snd w2) = Some (11, 0) /\
  translation (snd w2) <> Some (3 + 5, 0) /\
  translation (snd (dispatchAll drag sampleInput)) = Some (1, 0) /\
  translation (snd (dispatchAll drag w1)) = Some (3 + (1 + 3), 0) /\
  translation (snd (dispatchAll drag w1)) <> Some (3 + 1, 0).
Proof. vm_compute. repeat split; discriminate. Qed.

(** C6, as stated, fails.  [destroy()] on an engine with tracking enabled
    leaves one entry on the undo stack: [clearHistory()] reseeds the
    baseline before tracking is switched off. *)
Lemma destroy_leaves_baseline :
  getUndoStackSize (history (destroy 1 (construct (mkConfig None) emptyCanvas 0))) = 1%nat /\
  ~ (getUndoStackSize (history (destroy 1 (construct (mkConfig None) emptyCanvas 0))) = 0%nat /\
     getRedoStackSize (history (destroy 1 (construct (mkConfig None) emptyCanvas 0))) = 0%nat).
Proof. split; [reflexivity|]. intros [H _]. vm_compute in H. discriminate. Qed.

(** * The aggregate-change channel *)











(** * Further properties of the history engine *)

(** ** redo *)

(** X1. [redo()] without a redo entry changes nothing.  Otherwise it takes
    the last entry off the redo stack, appends an entry holding the scene
    that is live at the call (not the entry taken off) and the time of the
    call to the undo stack, and starts the load of the state of the entry
    taken off, without changing the scene or the viewport yet; when that
    load resolves the scene is that state and the viewport transform is the
    one the canvas had at the call. *)
Theorem redo_spec now w :
  (canRedo (history w) = false -> redo now w = w) /\
  (canRedo (history w) = true ->
   exists older next,
     redoStack (history w) = older ++ [next] /\
     redoStack (history (redo now w)) = older /\
     undoStack (history (redo now w)) =
       undoStack (history w) ++ [mkEntry (scene (canvas w)) now] /\
     pendingLoads (canvas (redo now w)) =
       pendingLoads (canvas w) ++
         [(state next,
           match viewportTransform (canvas w) with
           | Some v => v
           | None => mkMat2D 1 0 0 1 0 0
           end)] /\
     scene (canvas (redo now w)) = scene (canvas w) /\
     viewportTransform (canvas (redo now w)) = viewportTransform (canvas w) /\
     (forall l fired,
        forallb quiet l = true ->
        resolutions l = length (pendingLoads (canvas w)) ->
        let w' := step (LoadResolved fired) (run l (redo now w)) in
        scene (canvas w') = state next /\
        viewportTransform (canvas w') =
          Some (match viewportTransform (canvas w) with
                | Some v => v
                | None => mkMat2D 1 0 0 1 0 0
                end))).
Proof.
  split; [apply redo_not_available|].
  intros H.
  destruct (exists_last (l := redoStack (history w))) as (older & next & E).
  { intros E. unfold canRedo in H. rewrite E in H. discriminate H. }
  exists older, next. split; [exact E|].
  assert (T : top (redoStack (history w)) = Some next).
  { rewrite E. apply top_one. }
  rewrite (redo_history _ _ H), (redo_canvas _ _ _ H T).
  cbn [undoStack redoStack]. rewrite E, pop_one.
  do 5 (split; [reflexivity|]).
  intros l fired F K.
  assert (L : pendingLoads (canvas (run l (redo now w)))
              = [(state next, currentViewport (canvas w))]).
  { rewrite (run_quiet l (redo now w) F), (redo_canvas _ _ _ H T), K.
    unfold loadFromJSON. cbn [pendingLoads setPendingLoads]. apply skipn_length_app. }
  cbn [step].
  rewrite resolveLoad_canvas by (rewrite L; discriminate).
  unfold installLoad. rewrite L. split; reflexivity.
Qed.

Lemma redo_spec_witness :
  canRedo (history sampleUndone) = true /\
  scene (canvas sampleUndone) = "{}"%string /\
  redoStack (history sampleUndone) = [mkEntry "{rect}" 2] /\
  redoStack (history (redo 4 sampleUndone)) = [] /\
  undoStack (history (redo 4 sampleUndone)) = [mkEntry "{}" 0; mkEntry "{}" 4] /\
  scene (canvas (step (LoadResolved [("{rect}"%string, ObjectAdded, 5)])
                   (redo 4 sampleUndone))) = "{rect}"%string.
Proof.
  split; [reflexivity|]. split; [reflexivity|]. split; [reflexivity|].
  destruct (proj2 (redo_spec 4 sampleUndone) eq_refl)
    as (older & next & E & R & U & _ & _ & _ & F).
  change (redoStack (history sampleUndone)) with ([] ++ [mkEntry "{rect}" 2]) in E.
  apply app_inj_tail in E. destruct E as (<- & <-).
  destruct (F [] [("{rect}"%string, ObjectAdded, 5)] eq_refl eq_refl) as (Sc & _).
  split; [exact R|]. split; [exact U|exact Sc].
Defined.

Lemma undo_redo_inverse_witness :
  isEnabled (history (disable sampleWorld)) = false /\
  undoStack (history (disable sampleWorld)) = [] ++ [mkEntry "{}" 0; mkEntry "{rect}" 1] /\
  pendingLoads (canvas (disable sampleWorld)) = [] /\
  scene (canvas (step (LoadResolved [("{}"%string, ObjectRemoved, 3)])
                   (undo 2 (disable sampleWorld)))) = "{}"%string /\
  scene (canvas (step (LoadResolved [("{rect}"%string, ObjectAdded, 5)])
                   (redo 4 (step (LoadResolved [("{}"%string, ObjectRemoved, 3)])
                              (undo 2 (disable sampleWorld)))))) = "{rect}"%string.
Proof.
  split; [reflexivity|]. split; [reflexivity|]. split; [reflexivity|].
  exact (undo_redo_inverse 2 4 [("{}"%string, ObjectRemoved, 3)]
           [("{rect}"%string, ObjectAdded, 5)] (disable sampleWorld)
           [] (mkEntry "{}" 0) (mkEntry "{rect}" 1) eq_refl eq_refl eq_refl).
Defined.

(** ** What the stacks hold *)

Lemma undo_historyChanged now w :
  canUndo (history w) = true ->
  historyChanged (undo now w) =
    historyChanged w ++ [currentHistoryState (history (undo now w))].
Proof.
  intros H. unfold undo. rewrite H. simpl.
  destruct (top (pop (undoStack (history w)))); reflexivity.
Qed.

Lemma redo_historyChanged now w :
  canRedo (history w) = true ->
  historyChanged (redo now w) =
    historyChanged w ++ [currentHistoryState (history (redo now w))].
Proof.
  intros H. unfold redo. rewrite H. simpl.
  destruct (canRedo_next _ H) as [next ->]. reflexivity.
Qed.

(** X3. [undo()] and [redo()] only move entries between the two stacks: the
    total number of entries is the same before and after, in every state.
    In every reachable state of an engine with a non-negative [maxSize] the
    two stacks together hold at most [maxSize] entries, and neither
    reentrancy flag is set. *)
Theorem stacks_conserved_and_bounded cfg :
  0 <= configuredMaxSize cfg ->
  (forall now w,
     (getUndoStackSize (history (undo now w)) + getRedoStackSize (history (undo now w)) =
      getUndoStackSize (history w) + getRedoStackSize (history w))%nat /\
     (getUndoStackSize (history (redo now w)) + getRedoStackSize (history (redo now w)) =
      getUndoStackSize (history w) + getRedoStackSize (history w))%nat) /\
  (forall w, Reachable cfg w ->
     Z.of_nat (getUndoStackSize (history w) + getRedoStackSize (history w)) <=
       configuredMaxSize cfg /\
     isUndoing (history w) = false /\ isRedoing (history w) = false).
Proof.
  intros M. unfold getUndoStackSize, getRedoStackSize. split.
  - intros now w. split.
    + destruct (canUndo (history w)) eqn:H.
      * rewrite (undo_history _ _ H). simpl. rewrite length_pop, length_push.
        unfold canUndo in H. apply Nat.ltb_lt in H. lia.
      * now rewrite undo_not_available.
    + destruct (canRedo (history w)) eqn:H.
      * rewrite (redo_history _ _ H). simpl. rewrite length_pop, length_push.
        unfold canRedo in H. apply Nat.ltb_lt in H. lia.
      * now rewrite redo_not_available.
  - intros w R. destruct (Reachable_Inv _ _ M R) as ((U & Rd & B) & <-). auto.
Qed.

Lemma stacks_conserved_and_bounded_witness :
  0 <= configuredMaxSize (mkConfig None) /\
  Z.of_nat (getUndoStackSize (history sampleUndone) +
            getRedoStackSize (history sampleUndone)) <= configuredMaxSize (mkConfig None).
Proof.
  assert (M : 0 <= configuredMaxSize (mkConfig None)) by (vm_compute; discriminate).
  split; [exact M|].
  apply (proj2 (stacks_conserved_and_bounded (mkConfig None) M) sampleUndone).
  exists emptyCanvas, 0,
    [SceneChanged "{rect}"; Notify ObjectAdded 1;
     ViewportChanged (Some (mkMat2D 1 0 0 1 40 (-7)));
     CallDisable; CallUndo 2; LoadResolved [("{}"%string, ObjectRemoved, 3)]; CallEnable].
  reflexivity.
Defined.

(** ** What subscribers of the history-changed channel know *)

Lemma saveState_Synced now w : Synced w -> Synced (saveState now w).
Proof.
  intros I. destruct (enabled (history w)) eqn:E.
  - unfold Synced. rewrite (saveState_historyChanged _ _ E). apply (top_push _ _).
  - now rewrite saveState_disabled.
Qed.

Lemma clearHistory_Synced now w : Synced (clearHistory now w).
Proof.
  unfold Synced, currentHistoryState, canUndo, canRedo.
  rewrite clearHistory_undoStack, clearHistory_redoStack.
  replace (historyChanged (clearHistory now w))
    with (push (mkHistoryState false false)
            (historyChanged
               (saveState now
                  (withHistory (fun h => setRedoStack [] (setUndoStack [] h)) w))))
    by reflexivity.
  rewrite top_push.
  destruct (enabled (history w)); [|reflexivity].
  destruct (maxSize (history w) <? 1); reflexivity.
Qed.

Lemma resolveLoad_Synced fired w : Synced w -> Synced (resolveLoad fired w).
Proof.
  intros I. unfold resolveLoad. destruct (pendingLoads (canvas w)); [exact I|].
  change (Synced (fireAll fired w)). unfold fireAll. revert w I.
  induction fired as [|f fired IH]; intros w I; [exact I|].
  simpl. apply IH. unfold fire. rewrite onMutation_guard.
  destruct (_ && _); [|exact I]. apply saveState_Synced. exact I.
Qed.

Lemma step_Synced a w : Synced w -> Synced (step a w).
Proof.
  intros I. destruct a; cbn [step]; try exact I.
  - rewrite onMutation_guard. destruct (_ && _); [|exact I].
    now apply saveState_Synced.
  - destruct (canUndo (history w)) eqn:H.
    + unfold Synced. rewrite (undo_historyChanged _ _ H). apply (top_push _ _).
    + now rewrite undo_not_available.
  - destruct (canRedo (history w)) eqn:H.
    + unfold Synced. rewrite (redo_historyChanged _ _ H). apply (top_push _ _).
    + now rewrite redo_not_available.
  - apply clearHistory_Synced.
  - exact (clearHistory_Synced now w).
  - now apply resolveLoad_Synced.
Qed.

(** X4. In every reachable state the last event emitted on the history-changed
    channel carries the current values of [canUndo()] and [canRedo()];
    this includes the hard-coded [{false, false}] of [clearHistory()]. *)
Theorem last_emission_is_current cfg w :
  Reachable cfg w ->
  top (historyChanged w) =
    Some (mkHistoryState (canUndo (history w)) (canRedo (history w))).
Proof.
  intros (c & now & l & ->). change (Synced (run l (construct cfg c now))).
  assert (I : Synced (construct cfg c now)).
  { unfold construct, Synced. rewrite saveState_historyChanged by reflexivity.
    apply (top_push _ _). }
  revert I. generalize (construct cfg c now). unfold run.
  induction l as [|a l IH]; intros w I; [exact I|].
  simpl. apply IH, step_Synced, I.
Qed.

Lemma last_emission_is_current_witness :
  top (historyChanged sampleUndone) = Some (mkHistoryState false true).
Proof.
  apply (last_emission_is_current (mkConfig None) sampleUndone).
  exists emptyCanvas, 0,
    [SceneChanged "{rect}"; Notify ObjectAdded 1;
     ViewportChanged (Some (mkMat2D 1 0 0 1 40 (-7)));
     CallDisable; CallUndo 2; LoadResolved [("{}"%string, ObjectRemoved, 3)]; CallEnable].
  reflexivity.
Defined.

(** ** The engine and the canvas *)

Lemma step_engineAction_canvas a w :
  engineAction a = true ->
  scene (canvas (step a w)) = scene (canvas w) /\
  viewportTransform (canvas (step a w)) = viewportTransform (canvas w).
Proof.
  intros E. destruct a; try discriminate E; cbn [step].
  - now rewrite onMutation_canvas.
  - destruct (canUndo (history w)) eqn:H.
    + destruct (canUndo_previous _ H) as [prev T].
      rewrite (undo_canvas _ _ _ H T). auto.
    + now rewrite undo_not_available.
  - destruct (canRedo (history w)) eqn:H.
    + destruct (canRedo_next _ H) as [next T].
      rewrite (redo_canvas _ _ _ H T). auto.
    + now rewrite redo_not_available.
  - now rewrite clearHistory_canvas.
  - auto.
  - auto.
  - change (canvas (destroy now w)) with (canvas (clearHistory now w)).
    now rewrite clearHistory_canvas.
Qed.

(** X5. No method of the history manager and no listener changes the object
    graph or the viewport transform while it runs: on a run made only of
    method calls and notifications both stay as they were.  A restore
    reaches the canvas only when its load resolves. *)
Theorem engine_never_touches_canvas_synchronously l w :
  forallb engineAction l = true ->
  scene (canvas (run l w)) = scene (canvas w) /\
  viewportTransform (canvas (run l w)) = viewportTransform (canvas w).
Proof.
  unfold run. revert w. induction l as [|a l IH]; intros w F; [auto|].
  simpl in F. apply andb_true_iff in F. destruct F as (E & F).
  simpl. destruct (IH (step a w) F) as (-> & ->).
  now apply step_engineAction_canvas.
Qed.

Lemma engine_never_touches_canvas_synchronously_witness :
  scene (canvas (run [CallUndo 2; Notify ObjectAdded 3; CallRedo 4; CallClearHistory 5]
                     sampleWorld)) = scene (canvas sampleWorld) /\
  viewportTransform
    (canvas (run [CallUndo 2; Notify ObjectAdded 3; CallRedo 4; CallClearHistory 5]
                 sampleWorld)) = viewportTransform (canvas sampleWorld).
Proof.
  exact (engine_never_touches_canvas_synchronously
           [CallUndo 2; Notify ObjectAdded 3; CallRedo 4; CallClearHistory 5]
           sampleWorld eq_refl).
Defined.

(** ** Tracking switched off *)

Lemma mutations_disabled ms w :
  enabled (history w) = false ->
  history (run (mutations ms) w) = history w /\
  historyChanged (run (mutations ms) w) = historyChanged w.
Proof.
  revert w. induction ms as [|[[s ev] t] ms IH]; intros w E; [auto|].
  change (mutations ((s, ev, t) :: ms))
    with ([SceneChanged s; Notify ev t] ++ mutations ms).
  rewrite run_app.
  assert (W : run [SceneChanged s; Notify ev t] w = withCanvas (setScene s) w).
  { unfold run. simpl. apply onMutation_not_idle. auto. }
  rewrite W. apply (IH (withCanvas (setScene s) w)). exact E.
Qed.

(** X6. Mutations made between [disable()] and [enable()] leave no trace: the
    stacks, the flags and the emitted events are those from before
    [disable()], so the next [undo()] goes back past all of them.
    [disable()] does not take [undo()] away: it commutes with it. *)
Theorem untracked_mutations_leave_no_trace ms w :
  isEnabled (history w) = true ->
  history (run (CallDisable :: mutations ms ++ [CallEnable]) w) = history w /\
  historyChanged (run (CallDisable :: mutations ms ++ [CallEnable]) w) = historyChanged w /\
  (forall now,
     canUndo (history (disable w)) = canUndo (history w) /\
     history (undo now (disable w)) = history (disable (undo now w)) /\
     canvas (undo now (disable w)) = canvas (undo now w)).
Proof.
  unfold isEnabled. intros E. split; [|split].
  - change (CallDisable :: mutations ms ++ [CallEnable])
      with ([CallDisable] ++ mutations ms ++ [CallEnable]).
    rewrite !run_app.
    destruct (mutations_disabled ms (run [CallDisable] w) eq_refl) as (H & _).
    unfold run at 1. cbn [fold_left step]. unfold enable, withHistory. cbn [history].
    rewrite H. unfold run. simpl. destruct (history w). simpl in *. now subst.
  - change (CallDisable :: mutations ms ++ [CallEnable])
      with ([CallDisable] ++ mutations ms ++ [CallEnable]).
    rewrite !run_app.
    destruct (mutations_disabled ms (run [CallDisable] w) eq_refl) as (_ & H).
    unfold run at 1. cbn [fold_left step]. unfold enable, withHistory. cbn [historyChanged].
    rewrite H. reflexivity.
  - intros now. split; [reflexivity|].
    destruct (canUndo (history w)) eqn:H.
    + assert (H' : canUndo (history (disable w)) = true) by exact H.
      destruct (canUndo_previous _ H) as [prev T].
      rewrite (undo_history _ _ H'), (undo_canvas _ _ prev H' T).
      unfold disable, withHistory. cbn [history].
      rewrite (undo_history _ _ H), (undo_canvas _ _ prev H T). auto.
    + assert (H' : canUndo (history (disable w)) = false) by exact H.
      rewrite (undo_not_available _ _ H'), (undo_not_available _ _ H). auto.
Qed.

Lemma untracked_mutations_leave_no_trace_witness :
  isEnabled (history sampleWorld) = true /\
  history (run (CallDisable ::
                mutations [("{rect,circle}"%string, ObjectAdded, 5);
                           ("{circle}"%string, ObjectRemoved, 6)] ++ [CallEnable])
               sampleWorld) = history sampleWorld.
Proof.
  split; [reflexivity|].
  exact (proj1 (untracked_mutations_leave_no_trace
                  [("{rect,circle}"%string, ObjectAdded, 5);
                   ("{circle}"%string, ObjectRemoved, 6)] sampleWorld eq_refl)).
Defined.

(** ** Undo, redo, and what the undo stack holds afterwards *)

Lemma top_pop_after_save {A : Type} (a b : A) (l : list A) (evict : bool) :
  l <> [] ->
  let pushed := push b (push a l) in
  let kept := if evict then shift pushed else pushed in
  (1 <? length kept)%nat = true /\ top (pop kept) = Some a.
Proof.
  intros N. destruct l as [|x l]; [contradiction|].
  destruct evict; cbn zeta.
  - change (shift (push b (push a (x :: l)))) with (push b (push a l)).
    rewrite pop_push, top_push, !length_push. split; [|reflexivity].
    apply Nat.ltb_lt. lia.
  - rewrite pop_push, top_push, !length_push. split; [|reflexivity].
    apply Nat.ltb_lt. simpl. lia.
Qed.

Lemma undoThenRedo_result t1 f1 t2 f2 w older prev cur :
  undoStack (history w) = older ++ [prev; cur] ->
  pendingLoads (canvas w) = [] ->
  history (run (CallDisable :: undoThenRedo t1 f1 t2 f2 ++ [CallEnable]) w) =
    mkHistory (maxSize (history w))
      (older ++ [prev; mkEntry (state prev) t2])
      (redoStack (history w)) false false true /\
  canvas (run (CallDisable :: undoThenRedo t1 f1 t2 f2 ++ [CallEnable]) w) =
    setViewportTransform (Some (currentViewport (canvas w)))
      (setScene (scene (canvas w)) (setPendingLoads [] (canvas w))).
Proof.
  intros E P. set (w0 := disable w).
  assert (H : canUndo (history w0) = true).
  { unfold canUndo. change (undoStack (history w0)) with (undoStack (history w)).
    rewrite E, length_app. apply Nat.ltb_lt. simpl. lia. }
  assert (T : top (pop (undoStack (history w0))) = Some prev).
  { change (undoStack (history w0)) with (undoStack (history w)).
    rewrite E, pop_two. apply top_one. }
  set (w1 := step (LoadResolved f1) (undo t1 w0)).
  assert (PU : pendingLoads (canvas (undo t1 w0)) =
               [(state prev, currentViewport (canvas w))]).
  { rewrite (undo_canvas _ _ _ H T). unfold loadFromJSON. simpl. now rewrite P. }
  assert (C1 : canvas w1 =
               setViewportTransform (Some (currentViewport (canvas w)))
                 (setScene (state prev) (setPendingLoads [] (canvas w)))).
  { subst w1. cbn [step]. rewrite resolveLoad_canvas by (rewrite PU; discriminate).
    unfold installLoad. rewrite PU, (undo_canvas _ _ _ H T). reflexivity. }
  assert (H1 : history w1 =
               mkHistory (maxSize (history w)) (older ++ [prev])
                 (push (mkEntry (scene (canvas w)) t1) (redoStack (history w)))
                 false (isRedoing (history w)) false).
  { subst w1. cbn [step].
    destruct (resolveLoad_disabled f1 (undo t1 w0)) as (-> & _).
    - rewrite (undo_history _ _ H). reflexivity.
    - rewrite (undo_history _ _ H). subst w0. cbn [history withHistory disable undoStack
        setEnabled]. rewrite E, pop_two. reflexivity. }
  assert (CR : canRedo (history w1) = true).
  { unfold canRedo. rewrite H1. cbn [redoStack]. now rewrite length_push. }
  assert (TR : top (redoStack (history w1)) = Some (mkEntry (scene (canvas w)) t1)).
  { rewrite H1. cbn [redoStack]. apply top_push. }
  assert (PR : pendingLoads (canvas (redo t2 w1)) =
               [(scene (canvas w), currentViewport (canvas w))]).
  { rewrite (redo_canvas _ _ _ CR TR), C1. reflexivity. }
  assert (HR : history (redo t2 w1) =
               mkHistory (maxSize (history w)) (older ++ [prev; mkEntry (state prev) t2])
                 (redoStack (history w)) false false false).
  { rewrite (redo_history _ _ CR). unfold getCanvasState. rewrite C1, H1.
    cbn [maxSize undoStack redoStack isUndoing enabled scene setViewportTransform setScene].
    rewrite pop_push. unfold push. rewrite <- app_assoc. reflexivity. }
  change (run (CallDisable :: undoThenRedo t1 f1 t2 f2 ++ [CallEnable]) w)
    with (enable (step (LoadResolved f2) (redo t2 w1))).
  unfold enable, withHistory. cbn [history canvas step].
  destruct (resolveLoad_disabled f2 (redo t2 w1)) as (-> & _);
    [rewrite HR; reflexivity|].
  rewrite HR. split; [reflexivity|].
  rewrite resolveLoad_canvas by (rewrite PR; discriminate).
  unfold installLoad. rewrite PR, (redo_canvas _ _ _ CR TR), C1. reflexivity.
Qed.

(** X7. With tracking switched off around them, after [undo()] and
    [redo()], each with its load resolved, the scene and the redo stack are
    back where they were, but the entry on top of the undo stack is not the
    one that was there: [redo()] has pushed an entry that holds the state
    [undo()] had restored.  So once tracking is on again and one more
    mutation is recorded, [undo()] restores that older state: the scene that
    was live before the undo/redo pair is no longer in the history. *)
Theorem redo_pushes_the_undone_state t1 f1 t2 f2 w older prev cur :
  undoStack (history w) = older ++ [prev; cur] ->
  pendingLoads (canvas w) = [] ->
  scene (canvas (run (CallDisable :: undoThenRedo t1 f1 t2 f2 ++ [CallEnable]) w)) =
    scene (canvas w) /\
  redoStack (history (run (CallDisable :: undoThenRedo t1 f1 t2 f2 ++ [CallEnable]) w)) =
    redoStack (history w) /\
  undoStack (history (run (CallDisable :: undoThenRedo t1 f1 t2 f2 ++ [CallEnable]) w)) =
    older ++ [prev; mkEntry (state prev) t2] /\
  (forall d ev t3 t4 f3,
     scene (canvas (run ((CallDisable :: undoThenRedo t1 f1 t2 f2 ++ [CallEnable]) ++
                         [SceneChanged d; Notify ev t3; CallUndo t4; LoadResolved f3]) w)) =
       state prev).
Proof.
  intros E P.
  destruct (undoThenRedo_result t1 f1 t2 f2 w older prev cur E P) as (H2 & C2).
  rewrite H2, C2. do 3 (split; [reflexivity|]).
  intros d ev t3 t4 f3. rewrite run_app.
  set (w2 := run (CallDisable :: undoThenRedo t1 f1 t2 f2 ++ [CallEnable]) w) in *.
  set (w3 := saveState t3 (withCanvas (setScene d) w2)).
  assert (W3 : run [SceneChanged d; Notify ev t3] w2 = w3).
  { unfold run. cbn [fold_left step]. rewrite onMutation_guard.
    unfold withCanvas at 1 2 3. cbn [history]. rewrite H2. reflexivity. }
  change [SceneChanged d; Notify ev t3; CallUndo t4; LoadResolved f3]
    with ([SceneChanged d; Notify ev t3] ++ [CallUndo t4; LoadResolved f3]).
  rewrite run_app, W3.
  assert (E3 : enabled (history (withCanvas (setScene d) w2)) = true).
  { unfold withCanvas. cbn [history]. rewrite H2. reflexivity. }
  assert (U3 : undoStack (history w3) =
               let pushed := push (mkEntry d t3)
                               (push (mkEntry (state prev) t2) (older ++ [prev])) in
               if maxSize (history w) <? Z.of_nat (length pushed)
               then shift pushed else pushed).
  { subst w3. rewrite (saveState_undoStack _ _ E3).
    unfold withCanvas, getCanvasState. cbn [history canvas]. rewrite H2.
    cbn [undoStack maxSize scene setScene].
    replace (older ++ [prev; mkEntry (state prev) t2])
      with (push (mkEntry (state prev) t2) (older ++ [prev]))
      by (unfold push; rewrite <- app_assoc; reflexivity).
    reflexivity. }
  assert (N : older ++ [prev] <> []).
  { intros Z0. apply app_eq_nil in Z0. destruct Z0 as (_ & Z0). discriminate Z0. }
  destruct (top_pop_after_save (mkEntry (state prev) t2) (mkEntry d t3) _
              (maxSize (history w) <? Z.of_nat
                 (length (push (mkEntry d t3)
                            (push (mkEntry (state prev) t2) (older ++ [prev])))))
              N) as (CU & TP).
  cbn zeta in CU, TP, U3. rewrite <- U3 in CU, TP.
  assert (P3 : pendingLoads (canvas w3) = []).
  { subst w3. rewrite saveState_canvas. unfold withCanvas. cbn [canvas]. rewrite C2.
    reflexivity. }
  assert (PU : pendingLoads (canvas (undo t4 w3)) =
               [(state prev, currentViewport (canvas w3))]).
  { rewrite (undo_canvas _ _ _ CU TP). unfold loadFromJSON.
    cbn [pendingLoads setPendingLoads]. now rewrite P3. }
  unfold run. cbn [fold_left step].
  rewrite resolveLoad_canvas by (rewrite PU; discriminate).
  unfold installLoad. rewrite PU. reflexivity.
Qed.

Lemma redo_pushes_the_undone_state_witness :
  undoStack (history sampleWorld) = [] ++ [mkEntry "{}" 0; mkEntry "{rect}" 1] /\
  pendingLoads (canvas sampleWorld) = [] /\
  scene (canvas sampleWorld) = "{rect}"%string /\
  undoStack
    (history (run (CallDisable ::
                   undoThenRedo 2 [("{}"%string, ObjectRemoved, 3)]
                                4 [("{rect}"%string, ObjectAdded, 5)] ++ [CallEnable])
                  sampleWorld)) = [mkEntry "{}" 0; mkEntry "{}" 4] /\
  scene
    (canvas (run ((CallDisable ::
                   undoThenRedo 2 [("{}"%string, ObjectRemoved, 3)]
                                4 [("{rect}"%string, ObjectAdded, 5)] ++ [CallEnable]) ++
                  [SceneChanged "{rect,circle}"; Notify ObjectAdded 6; CallUndo 7;
                   LoadResolved [("{rect}"%string, ObjectRemoved, 8)]])
                 sampleWorld)) = "{}"%string.
Proof.
  split; [reflexivity|]. split; [reflexivity|]. split; [reflexivity|].
  destruct (redo_pushes_the_undone_state 2 [("{}"%string, ObjectRemoved, 3)]
              4 [("{rect}"%string, ObjectAdded, 5)] sampleWorld
              [] (mkEntry "{}" 0) (mkEntry "{rect}" 1) eq_refl eq_refl)
    as (_ & _ & U & F).
  split; [exact U|].
  exact (F "{rect,circle}"%string ObjectAdded 6 7 [("{rect}"%string, ObjectRemoved, 8)]).
Defined.

(** * Further properties of the pan modes *)

Lemma dispatchAll_cons ev evs w :
  dispatchAll (ev :: evs) w = dispatchAll evs (dispatch ev w).
Proof. reflexivity. Qed.

Lemma dispatchAll_app evs1 evs2 w :
  dispatchAll (evs1 ++ evs2) w = dispatchAll evs2 (dispatchAll evs1 w).
Proof. unfold dispatchAll. apply fold_left_app. Qed.

(** ** Spacebar drag *)

Lemma moves_run ms :
  forall im c v last,
    spacebarPanEnabled im = true ->
    spacebarPressed im = true ->
    mouseDown im = true ->
    viewportTransform c = Some v ->
    dispatchAll (moves (ms ++ [last])) (im, c) =
      (setLastPos (fst last) (snd last) im,
       setViewportTransform
         (Some (translate (lastPosX im + 2 * sumX ms + fst last)
                          (lastPosY im + 2 * sumY ms + snd last) v)) c).
Proof.
  induction ms as [|m ms IH]; intros im c v last En Pr Dn V.
  - simpl. unfold dispatch, mouseMoveListener. simpl. rewrite En, Pr, Dn, V. simpl.
    do 3 f_equal. unfold translate. f_equal; lia.
  - change (moves ((m :: ms) ++ [last]))
      with (MouseMove (fst m) (snd m) :: moves (ms ++ [last])).
    rewrite dispatchAll_cons.
    assert (D : dispatch (MouseMove (fst m) (snd m)) (im, c) =
                (setLastPos (fst m) (snd m) im,
                 setViewportTransform
                   (Some (translate (fst m + lastPosX im) (snd m + lastPosY im) v)) c)).
    { unfold dispatch, mouseMoveListener. simpl. rewrite En, Pr, Dn, V. reflexivity. }
    rewrite D, (IH _ _ (translate (fst m + lastPosX im) (snd m + lastPosY im) v) last);
      try reflexivity; try assumption.
    f_equal. unfold setViewportTransform. cbn [scene activeObject selection upperCanvasEl
      pendingLoads]. f_equal. f_equal. unfold translate.
    cbn [m0 m1 m2 m3 m4 m5 lastPosX lastPosY setLastPos].
    change (sumX (m :: ms)) with (fst m + sumX ms).
    change (sumY (m :: ms)) with (snd m + sumY ms).
    f_equal; lia.
Qed.

(** X8. A complete drag: space down, button down, the pointer moves
    [ms ++ [last]], button up, space up.  Every move adds its own movement
    plus the previous one (the value left in [lastPosX/Y] for the first
    move), so the translation grows by [lastPos + 2 * sum ms + last]: twice
    the distance the pointer travelled, less the last move.  The drag ends
    with the session state cleared. *)
Theorem drag_translation im c v ms last :
  spacebarPanEnabled im = true ->
  viewportTransform c = Some v ->
  let w' := dispatchAll ([KeyDown true; MouseDown] ++ moves (ms ++ [last]) ++
                         [MouseUp; KeyUp true]) (im, c) in
  translation (snd w') =
    Some (m4 v + (lastPosX im + 2 * sumX ms + fst last),
          m5 v + (lastPosY im + 2 * sumY ms + snd last)) /\
  lastPosX (fst w') = 0 /\ lastPosY (fst w') = 0 /\
  spacebarPressed (fst w') = false /\ mouseDown (fst w') = false.
Proof.
  intros En V w'. subst w'.
  rewrite !dispatchAll_app.
  assert (S0 : dispatchAll [KeyDown true; MouseDown] (im, c) =
               (setSpacebar true true true im, c)).
  { unfold dispatchAll. simpl. rewrite En. simpl. rewrite ?En. reflexivity. }
  rewrite S0, (moves_run ms _ _ v last); try reflexivity; [|exact V].
  unfold dispatchAll. simpl. unfold translation. simpl. auto.
Qed.

Lemma drag_translation_witness :
  spacebarPanEnabled (fst sampleInput) = true /\
  viewportTransform (snd sampleInput) = Some identityMatrix /\
  translation
    (snd (dispatchAll ([KeyDown true; MouseDown] ++ moves ([(4, 0); (6, 1)] ++ [(2, 3)]) ++
                       [MouseUp; KeyUp true]) sampleInput)) = Some (22, 5).
Proof.
  split; [reflexivity|]. split; [reflexivity|].
  exact (proj1 (drag_translation (fst sampleInput) (snd sampleInput) identityMatrix
                  [(4, 0); (6, 1)] (2, 3) eq_refl eq_refl)).
Defined.

(** X9. Without a wheel event, a pan move or a press of the space key, nothing
    pans: from a state in which the space key is not held, mouse buttons,
    mouse moves, other keys and gesture starts and ends leave the viewport
    transform as it is. *)
Theorem no_pan_without_intent evs w :
  forallb noPanIntent evs = true ->
  spacebarPressed (fst w) = false ->
  viewportTransform (snd (dispatchAll evs w)) = viewportTransform (snd w) /\
  spacebarPressed (fst (dispatchAll evs w)) = false.
Proof.
  revert w. induction evs as [|ev evs IH]; intros w F P; [auto|].
  simpl in F. apply andb_true_iff in F. destruct F as (N & F).
  rewrite dispatchAll_cons.
  assert (S1 : viewportTransform (snd (dispatch ev w)) = viewportTransform (snd w) /\
               spacebarPressed (fst (dispatch ev w)) = false).
  { destruct w as [im c]. simpl in P.
    destruct ev as [[|]|[|]| | | | | | |]; try discriminate N;
      unfold dispatch; simpl;
      destruct (spacebarPanEnabled im) eqn:En; destruct (hammer im) eqn:Hm;
      simpl; rewrite ?P; simpl; auto. }
  destruct S1 as (V1 & P1). destruct (IH (dispatch ev w) F P1) as (-> & ->). auto.
Qed.

Lemma no_pan_without_intent_witness :
  viewportTransform
    (snd (dispatchAll [MouseDown; MouseMove 30 40; KeyDown false; MouseMove 5 5; MouseUp;
                       PanStart (mkPoint 1 1); PanEnd] sampleInput)) =
    viewportTransform (snd sampleInput).
Proof.
  exact (proj1 (no_pan_without_intent
                  [MouseDown; MouseMove 30 40; KeyDown false; MouseMove 5 5; MouseUp;
                   PanStart (mkPoint 1 1); PanEnd] sampleInput eq_refl eq_refl)).
Defined.

(** ** Two-finger gesture *)

Lemma last_cons {A : Type} (x d : A) (l : list A) : last (x :: l) d = last l x.
Proof.
  revert x d. induction l as [|y l IH]; intros x d; [reflexivity|].
  change (last (x :: y :: l) d) with (last (y :: l) d).
  rewrite (IH y d), (IH y x). reflexivity.
Qed.

Lemma panMoves_run ps :
  forall im c v,
    hammer im = true ->
    activeObject c = None ->
    viewportTransform c = Some v ->
    smooth (touchPanMaxJump im) (mkPoint (touchPanLastX im) (touchPanLastY im)) ps = true ->
    let p := mkPoint (touchPanLastX im) (touchPanLastY im) in
    let w' := dispatchAll (panMoves ps) (im, c) in
    translation (snd w') =
      Some (m4 v + (px (last ps p) - px p), m5 v + (py (last ps p) - py p)) /\
    touchPanLastX (fst w') = px (last ps p) /\
    touchPanLastY (fst w') = py (last ps p) /\
    hammer (fst w') = true /\
    selection (snd w') = selection c.
Proof.
  induction ps as [|q ps IH]; intros im c v Hm A V S p w'.
  - subst w' p. simpl. unfold translation. rewrite V. simpl.
    rewrite !Z.sub_diag, !Z.add_0_r. auto.
  - subst w'. change (panMoves (q :: ps)) with (PanMove q :: panMoves ps).
    rewrite dispatchAll_cons.
    simpl in S. apply andb_true_iff in S. destruct S as (J & S).
    assert (D : dispatch (PanMove q) (im, c) =
                (setTouchPanLast (px q) (py q) im,
                 setViewportTransform
                   (Some (translate (px q - touchPanLastX im) (py q - touchPanLastY im) v))
                   c)).
    { unfold dispatch, panmove. simpl. rewrite Hm, A. simpl in J. rewrite J.
      unfold pan. rewrite V. reflexivity. }
    rewrite D.
    destruct (IH (setTouchPanLast (px q) (py q) im)
                 (setViewportTransform
                    (Some (translate (px q - touchPanLastX im)
                                     (py q - touchPanLastY im) v)) c)
                 (translate (px q - touchPanLastX im) (py q - touchPanLastY im) v)
                 Hm A eq_refl) as (T & X & Y & H' & Sel).
    { destruct q. exact S. }
    subst p. rewrite last_cons.
    cbn [touchPanLastX touchPanLastY setTouchPanLast px py] in T, X, Y.
    replace (mkPoint (px q) (py q)) with q in T, X, Y by (destruct q; reflexivity).
    rewrite T, X, Y. cbn [px py translate m4 m5]. repeat split; try assumption.
    f_equal. f_equal; lia.
Qed.

(** X10. A two-finger gesture with no object selected, every step of which
    passes the jump test, moves the viewport by exactly the displacement of
    the centroid from the start of the gesture to its last position, and it
    ends with [canvas.selection] switched on, whatever it was before the
    gesture. *)
Theorem touch_gesture_follows_centroid im c v p0 ps :
  hammer im = true ->
  activeObject c = None ->
  viewportTransform c = Some v ->
  smooth (touchPanMaxJump im) p0 ps = true ->
  let w' := dispatchAll (PanStart p0 :: panMoves ps ++ [PanEnd]) (im, c) in
  translation (snd w') =
    Some (m4 v + (px (last ps p0) - px p0), m5 v + (py (last ps p0) - py p0)) /\
  selection (snd w') = true.
Proof.
  intros Hm A V S w'. subst w'.
  rewrite dispatchAll_cons, dispatchAll_app.
  assert (D : dispatch (PanStart p0) (im, c) =
              (setTouchPanLast (px p0) (py p0) im, setSelection false c)).
  { unfold dispatch. simpl. rewrite Hm. reflexivity. }
  rewrite D.
  destruct (panMoves_run ps (setTouchPanLast (px p0) (py p0) im) (setSelection false c) v
              Hm A V) as (T & _ & _ & H' & _).
  { destruct p0. exact S. }
  cbn [touchPanLastX touchPanLastY setTouchPanLast] in T.
  replace (mkPoint (px p0) (py p0)) with p0 in T by (destruct p0; reflexivity).
  destruct (dispatchAll (panMoves ps) (setTouchPanLast (px p0) (py p0) im,
                                       setSelection false c)) as [im' c'] eqn:E.
  simpl in T, H'. unfold dispatchAll. simpl. rewrite H'. simpl.
  split; [exact T|reflexivity].
Qed.

Lemma touch_gesture_follows_centroid_witness :
  hammer (fst sampleInput) = true /\
  translation
    (snd (dispatchAll (PanStart (mkPoint 100 100) ::
                       panMoves [mkPoint 180 90; mkPoint 300 60; mkPoint 290 200] ++ [PanEnd])
                      (fst sampleInput, setSelection false (snd sampleInput)))) =
    Some (190, 100) /\
  selection
    (snd (dispatchAll (PanStart (mkPoint 100 100) ::
                       panMoves [mkPoint 180 90; mkPoint 300 60; mkPoint 290 200] ++ [PanEnd])
                      (fst sampleInput, setSelection false (snd sampleInput)))) = true.
Proof.
  split; [reflexivity|].
  exact (touch_gesture_follows_centroid (fst sampleInput)
           (setSelection false (snd sampleInput)) identityMatrix (mkPoint 100 100)
           [mkPoint 180 90; mkPoint 300 60; mkPoint 290 200]
           eq_refl eq_refl eq_refl eq_refl).
Defined.

(** ** Switching modes off *)

Lemma dispatch_disableMouseWheelPan ev w :
  isWheel ev = false ->
  dispatch ev (disableMouseWheelPan w) = disableMouseWheelPan (dispatch ev w).
Proof.
  intros N. destruct w as [im c].
  destruct im as [J en pr dn lx ly wh hm tx ty].
  destruct ev as [sp|sp| | |mx my|dx dy|p|p|]; try discriminate N;
    unfold dispatch, disableMouseWheelPan, spacebarKeydownListener, spacebarKeyupListener,
      mouseDownListener, mouseUpListener, mouseMoveListener, panstart, panmove, panend;
    cbn [fst snd mouseWheelListener spacebarPanEnabled hammer spacebarPressed mouseDown
         setMouseWheelListener touchPanMaxJump lastPosX lastPosY touchPanLastX
         touchPanLastY];
    destruct wh, en, hm; try reflexivity;
    cbn [fst snd mouseWheelListener spacebarPanEnabled hammer spacebarPressed mouseDown
         setMouseWheelListener touchPanMaxJump lastPosX lastPosY touchPanLastX
         touchPanLastY];
    try (destruct sp; reflexivity);
    try (destruct pr, dn; try reflexivity; simpl;
         destruct (viewportTransform c); reflexivity);
    try (destruct (activeObject c); reflexivity).
Qed.

(** X11. With wheel pan switched off, any sequence of input events acts as the
    same sequence without its wheel events acts with wheel pan left on:
    wheel events do nothing, and the spacebar and touch modes work exactly
    as before. *)
Theorem wheel_off_leaves_other_modes_alone evs w :
  dispatchAll evs (disableMouseWheelPan w) =
    disableMouseWheelPan (dispatchAll (filter (fun ev => negb (isWheel ev)) evs) w).
Proof.
  revert w. induction evs as [|ev evs IH]; intros w; [reflexivity|].
  rewrite dispatchAll_cons. simpl filter. destruct (isWheel ev) eqn:W; simpl negb; cbv iota.
  - destruct ev; try discriminate W.
    assert (D : dispatch (MouseWheel deltaX deltaY) (disableMouseWheelPan w) =
                disableMouseWheelPan w).
    { destruct w as [im c]. unfold dispatch, disableMouseWheelPan.
      destruct (mouseWheelListener im) eqn:L; simpl; [reflexivity|now rewrite L]. }
    rewrite D. apply IH.
  - rewrite dispatchAll_cons, (dispatch_disableMouseWheelPan _ _ W). apply IH.
Qed.



(** ** Wheel bursts *)

Lemma wheels_run ds :
  forall im c v last,
    mouseWheelListener im = true ->
    viewportTransform c = Some v ->
    dispatchAll (wheels (ds ++ [last])) (im, c) =
      (setLastPos (fst last) (snd last) im,
       setViewportTransform
         (Some (translate (lastPosX im + 2 * sumX ds + fst last)
                          (lastPosY im + 2 * sumY ds + snd last) v)) c).
Proof.
  induction ds as [|d ds IH]; intros im c v last L V.
  - simpl. unfold dispatch, wheelListener. simpl. rewrite L, V. simpl.
    do 3 f_equal. unfold translate. f_equal; lia.
  - change (wheels ((d :: ds) ++ [last]))
      with (MouseWheel (fst d) (snd d) :: wheels (ds ++ [last])).
    rewrite dispatchAll_cons.
    assert (D : dispatch (MouseWheel (fst d) (snd d)) (im, c) =
                (setLastPos (fst d) (snd d) im,
                 setViewportTransform
                   (Some (translate (fst d + lastPosX im) (snd d + lastPosY im) v)) c)).
    { unfold dispatch, wheelListener. simpl. rewrite L, V. reflexivity. }
    rewrite D, (IH _ _ (translate (fst d + lastPosX im) (snd d + lastPosY im) v) last);
      try reflexivity; try assumption.
    f_equal. unfold setViewportTransform. cbn [scene activeObject selection upperCanvasEl
      pendingLoads]. f_equal. f_equal. unfold translate.
    cbn [m0 m1 m2 m3 m4 m5 lastPosX lastPosY setLastPos].
    change (sumX (d :: ds)) with (fst d + sumX ds).
    change (sumY (d :: ds)) with (snd d + sumY ds).
    f_equal; lia.
Qed.

(** X17. A burst of wheel events [ds ++ [last]] moves the translation by
    [lastPos + 2 * sum ds + last]: every event but the last counts twice,
    and the delta left over from the previous burst (or drag move) is added
    once more, because the wheel handler never clears [lastPosX/Y].
    Afterwards [lastPosX/Y] holds the last delta. *)
Theorem wheel_burst_translation im c v ds last :
  mouseWheelListener im = true ->
  viewportTransform c = Some v ->
  translation (snd (dispatchAll (wheels (ds ++ [last])) (im, c))) =
    Some (m4 v + (lastPosX im + 2 * sumX ds + fst last),
          m5 v + (lastPosY im + 2 * sumY ds + snd last)) /\
  lastPosX (fst (dispatchAll (wheels (ds ++ [last])) (im, c))) = fst last /\
  lastPosY (fst (dispatchAll (wheels (ds ++ [last])) (im, c))) = snd last.
Proof.
  intros L V. rewrite (wheels_run ds im c v last L V). unfold translation. simpl. auto.
Qed.

Lemma wheel_burst_translation_witness :
  mouseWheelListener (fst sampleInput) = true /\
  translation (snd (dispatchAll (wheels ([(0, 10); (0, 10)] ++ [(0, 10)])) sampleInput)) =
    Some (0, 50).
Proof.
  split; [reflexivity|].
  exact (proj1 (wheel_burst_translation (fst sampleInput) (snd sampleInput) identityMatrix
                  [(0, 10); (0, 10)] (0, 10) eq_refl eq_refl)).
Defined.

(** * Which snapshots the undo stack keeps *)

Lemma saveState_undoStack_skipn now w :
  0 <= maxSize (history w) ->
  enabled (history w) = true ->
  Z.of_nat (length (undoStack (history w))) <= maxSize (history w) ->
  undoStack (history (saveState now w)) =
    skipn (length (undoStack (history w)) + 1 - Z.to_nat (maxSize (history w)))
          (undoStack (history w) ++ [mkEntry (getCanvasState w) now]).
Proof.
  intros M E B. rewrite (saveState_undoStack _ _ E). cbv zeta. rewrite length_push.
  unfold push.
  destruct (Z.ltb_spec (maxSize (history w)) (Z.of_nat (S (length (undoStack (history w)))))).
  - replace (length (undoStack (history w)) + 1 - Z.to_nat (maxSize (history w)))%nat
      with 1%nat by lia.
    reflexivity.
  - replace (length (undoStack (history w)) + 1 - Z.to_nat (maxSize (history w)))%nat
      with 0%nat by lia.
    reflexivity.
Qed.

Lemma mutations_undoStack ms :
  forall w,
    0 <= maxSize (history w) ->
    Inv w ->
    enabled (history w) = true ->
    undoStack (history (run (mutations ms) w)) =
      skipn (length (undoStack (history w) ++ entriesOf ms) - Z.to_nat (maxSize (history w)))
            (undoStack (history w) ++ entriesOf ms).
Proof.
  induction ms as [|[[s ev] t] ms IH]; intros w M I E.
  - destruct I as (_ & _ & B). simpl. rewrite app_nil_r.
    replace (length (undoStack (history w)) - Z.to_nat (maxSize (history w)))%nat
      with 0%nat by lia.
    reflexivity.
  - change (mutations ((s, ev, t) :: ms))
      with ([SceneChanged s; Notify ev t] ++ mutations ms).
    rewrite run_app. set (w0 := withCanvas (setScene s) w).
    set (w1 := run [SceneChanged s; Notify ev t] w).
    assert (W1 : w1 = saveState t w0).
    { subst w1 w0. unfold run. simpl. rewrite onMutation_guard. simpl.
      destruct I as (-> & -> & _). rewrite E. reflexivity. }
    assert (I0 : Inv w0) by exact I.
    destruct (saveState_Inv t w0 M I0) as (I1 & _). rewrite <- W1 in I1.
    destruct (saveState_config t w0) as (Em & _ & _ & Ee). rewrite <- W1 in Em, Ee.
    change (maxSize (history w0)) with (maxSize (history w)) in Em.
    change (enabled (history w0)) with (enabled (history w)) in Ee.
    assert (B : Z.of_nat (length (undoStack (history w))) <= maxSize (history w)).
    { destruct I as (_ & _ & B). lia. }
    assert (U1 : undoStack (history w1) =
                 skipn (length (undoStack (history w)) + 1 - Z.to_nat (maxSize (history w)))
                       (undoStack (history w) ++ [mkEntry s t])).
    { rewrite W1. apply (saveState_undoStack_skipn t w0 M E B). }
    rewrite IH; [|rewrite Em; exact M|exact I1|rewrite Ee; exact E].
    rewrite Em, U1.
    change (entriesOf ((s, ev, t) :: ms)) with ([mkEntry s t] ++ entriesOf ms).
    rewrite (app_assoc (undoStack (history w))).
    set (X := undoStack (history w) ++ [mkEntry s t]).
    set (k := (length (undoStack (history w)) + 1 - Z.to_nat (maxSize (history w)))%nat).
    assert (LX : length X = S (length (undoStack (history w)))).
    { subst X. rewrite length_app. simpl. lia. }
    assert (K : (k <= length X)%nat) by (subst k; lia).
    assert (A : skipn k X ++ entriesOf ms = skipn k (X ++ entriesOf ms)).
    { rewrite skipn_app. replace (k - length X)%nat with 0%nat by lia. reflexivity. }
    rewrite A, skipn_skipn. f_equal.
    rewrite length_skipn, !length_app. subst k. lia.
Qed.

(** X18. Eviction is first in, first out over whole runs: after any number of
    recorded mutations, starting from a reachable state with tracking
    enabled, the undo stack is the old stack followed by the new snapshots,
    cut down from the front to its last [maxSize] entries. *)
Theorem undo_stack_keeps_most_recent cfg w ms :
  0 <= configuredMaxSize cfg ->
  Reachable cfg w ->
  isEnabled (history w) = true ->
  undoStack (history (run (mutations ms) w)) =
    skipn (length (undoStack (history w) ++ entriesOf ms) -
           Z.to_nat (configuredMaxSize cfg))
          (undoStack (history w) ++ entriesOf ms).
Proof.
  intros M R E. destruct (Reachable_Inv _ _ M R) as (I & Mx).
  rewrite <- Mx. apply mutations_undoStack; [rewrite Mx; exact M|exact I|exact E].
Qed.

Lemma undo_stack_keeps_most_recent_witness :
  0 <= configuredMaxSize (mkConfig (Some 2)) /\
  undoStack
    (history
       (run (mutations [("{a}"%string, ObjectAdded, 1);
                        ("{a,b}"%string, ObjectAdded, 2);
                        ("{b}"%string, ObjectRemoved, 3)])
            (construct (mkConfig (Some 2)) emptyCanvas 0))) =
    [mkEntry "{a,b}" 2; mkEntry "{b}" 3].
Proof.
  assert (M : 0 <= configuredMaxSize (mkConfig (Some 2))) by (vm_compute; discriminate).
  split; [exact M|].
  rewrite (undo_stack_keeps_most_recent (mkConfig (Some 2))
             (construct (mkConfig (Some 2)) emptyCanvas 0)
             [("{a}"%string, ObjectAdded, 1); ("{a,b}"%string, ObjectAdded, 2);
              ("{b}"%string, ObjectRemoved, 3)] M).
  - reflexivity.
  - exists emptyCanvas, 0, []. reflexivity.
  - reflexivity.
Defined.

(** * Configuration reaching the managers *)

Lemma constructInput_hammer cfg c :
  hammer (fst (constructInput cfg c)) = orDefault (cfgTouchPan cfg) true && upperCanvasEl c /\
  touchPanMaxJump (fst (constructInput cfg c)) = orDefault (cfgTouchPanMaxJump cfg) 200.
Proof.
  unfold constructInput.
  destruct (orDefault (cfgSpacebarPan cfg) true), (orDefault (cfgMouseWheelPan cfg) true),
    (orDefault (cfgTouchPan cfg) true); simpl; unfold enableTouchPan; simpl;
    destruct (upperCanvasEl c); auto.
Qed.

(** X13. Whether two-finger panning is on after [FabricCanvas.create] is decided
    by [touch.pan], which [mergeConfig] always fills in: a configuration
    that sets [touch.enabled] and does not mention [touch.pan] gets touch
    panning whatever [touch.enabled] says.  [touch.enabled] is consulted
    only when [touch.pan] is passed as [undefined].  The jump bound is
    [touch.maxJumpDistance], 200 when it is not given. *)
Theorem touch_pan_is_decided_by_pan userConfig c t :
  upperCanvasEl c = true ->
  cfgTouch userConfig = Given t ->
  hammer (fst (createInput userConfig c)) =
    match touchPan t with
    | Absent => true
    | Given b => b
    | Undefined => match touchEnabled t with Given b => b | _ => true end
    end /\
  touchPanMaxJump (fst (createInput userConfig c)) =
    match touchMaxJumpDistance t with Given j => j | _ => 200 end.
Proof.
  intros U T. unfold createInput.
  destruct (constructInput_hammer (inputConfigOf (mergeConfig userConfig)) c) as (-> & ->).
  rewrite U, andb_true_r. unfold inputConfigOf, mergeConfig. simpl. rewrite T. simpl.
  split.
  - destruct (touchPan t) as [| |b]; simpl; [reflexivity| |reflexivity].
    destruct (touchEnabled t); reflexivity.
  - destruct (touchMaxJumpDistance t); reflexivity.
Qed.

Lemma touch_pan_is_decided_by_pan_witness :
  upperCanvasEl emptyCanvas = true /\
  hammer (fst (createInput
                 (mkCanvasConfig Absent
                    (Given (mkTouchConfig (Given false) Absent Absent)) Absent)
                 emptyCanvas)) = true.
Proof.
  split; [reflexivity|].
  exact (proj1 (touch_pan_is_decided_by_pan
                  (mkCanvasConfig Absent
                     (Given (mkTouchConfig (Given false) Absent Absent)) Absent)
                  emptyCanvas (mkTouchConfig (Given false) Absent Absent)
                  eq_refl eq_refl)).
Defined.

(** X14. [history.enabled] never reaches the history manager: whatever the
    configuration says, the engine that [FabricCanvas.create] builds tracks
    mutations from the start.  Its bound is [history.maxSize], 50 when that
    is not given; it can neither undo nor redo, holds the baseline snapshot
    of the canvas when the bound is at least 1, and has announced
    [{false, false}] once. *)
Theorem history_enabled_is_not_wired userConfig c now :
  isEnabled (history (createHistory userConfig c now)) = true /\
  maxSize (history (createHistory userConfig c now)) =
    match cfgHistory userConfig with
    | Given h => match historyMaxSize h with Given n => n | _ => 50 end
    | _ => 50
    end /\
  canUndo (history (createHistory userConfig c now)) = false /\
  canRedo (history (createHistory userConfig c now)) = false /\
  (1 <= maxSize (history (createHistory userConfig c now)) ->
     undoStack (history (createHistory userConfig c now)) = [mkEntry (scene c) now]) /\
  historyChanged (createHistory userConfig c now) = [mkHistoryState false false] /\
  canvas (createHistory userConfig c now) = c.
Proof.
  unfold createHistory, isEnabled.
  set (cfg := historyConfigOf (mergeConfig userConfig)).
  assert (Mx : configuredMaxSize cfg =
               match cfgHistory userConfig with
               | Given h => match historyMaxSize h with Given n => n | _ => 50 end
               | _ => 50
               end).
  { subst cfg. unfold configuredMaxSize, historyConfigOf, mergeConfig. simpl.
    destruct (cfgHistory userConfig) as [| |h]; try reflexivity.
    simpl. destruct (historyMaxSize h); reflexivity. }
  rewrite <- Mx. clear Mx. unfold construct.
  set (w0 := mkWorld c (mkHistory (configuredMaxSize cfg) [] [] false false true) []).
  assert (E0 : enabled (history w0) = true) by reflexivity.
  destruct (saveState_config now w0) as (Em & _ & _ & Ee).
  assert (U : undoStack (history (saveState now w0)) =
              if configuredMaxSize cfg <? 1 then [] else [mkEntry (scene c) now]).
  { rewrite (saveState_undoStack _ _ E0). simpl.
    destruct (configuredMaxSize cfg <? 1); reflexivity. }
  assert (CU : canUndo (history (saveState now w0)) = false).
  { unfold canUndo. rewrite U. destruct (configuredMaxSize cfg <? 1); reflexivity. }
  assert (CR : canRedo (history (saveState now w0)) = false).
  { unfold canRedo. now rewrite (saveState_redoStack _ _ E0). }
  rewrite Ee, Em, CU, CR, U, saveState_canvas, (saveState_historyChanged _ _ E0), CU, CR.
  repeat split.
  intros H. destruct (Z.ltb_spec (configuredMaxSize cfg) 1); [simpl in H; lia|reflexivity].
Qed.

Lemma history_enabled_is_not_wired_witness :
  isEnabled
    (history (createHistory
                (mkCanvasConfig Absent Absent
                   (Given (mkHistoryConfig (Given false) (Given 10))))
                emptyCanvas 0)) = true /\
  maxSize
    (history (createHistory
                (mkCanvasConfig Absent Absent
                   (Given (mkHistoryConfig (Given false) (Given 10))))
                emptyCanvas 0)) = 10.
Proof.
  destruct (history_enabled_is_not_wired
              (mkCanvasConfig Absent Absent
                 (Given (mkHistoryConfig (Given false) (Given 10))))
              emptyCanvas 0) as (E & M & _).
  split; [exact E|exact M].
Defined.

Lemma spread_present {A : Type} (d o : option A) : spread d (present o) = o.
Proof. destruct o; reflexivity. Qed.

(** X15. [configure] merges section by section, not field by field.  An update
    that mentions no section leaves the configuration as it is; an update
    that mentions the touch section replaces it whole, so that the fields
    the update leaves out go back to their defaults instead of keeping
    their current values (and likewise for the other sections). *)
Theorem configure_replaces_whole_sections current :
  configure current (mkCanvasConfig Absent Absent Absent) = current /\
  (forall m t h,
     mergedTouch (configure current (mkCanvasConfig m (Given t) h)) = mergeTouch (Given t)) /\
  (forall m t h,
     touchMaxJumpDistance t = Absent ->
     mMaxJumpDistance (mergedTouch (configure current (mkCanvasConfig m (Given t) h))) =
       Some 200) /\
  (forall m h,
     mergedTouch (configure current (mkCanvasConfig m Undefined h)) =
       mkMergedTouch (Some true) (Some true) (Some 200)).
Proof.
  split; [|split; [|split]].
  - destruct current as [[a b] [e p j] [he hm]]. unfold configure, mergeConfig. simpl.
    now rewrite !spread_present.
  - reflexivity.
  - intros m t h A. unfold configure, mergeConfig. simpl. rewrite A. reflexivity.
  - reflexivity.
Qed.

Lemma configure_replaces_whole_sections_witness :
  mMaxJumpDistance
    (mergedTouch
       (mergeConfig (mkCanvasConfig Absent
                       (Given (mkTouchConfig Absent Absent (Given 80))) Absent))) = Some 80 /\
  mMaxJumpDistance
    (mergedTouch
       (configure
          (mergeConfig (mkCanvasConfig Absent
                          (Given (mkTouchConfig Absent Absent (Given 80))) Absent))
          (mkCanvasConfig Absent
             (Given (mkTouchConfig Absent (Given false) Absent)) Absent))) = Some 200.
Proof.
  split; [reflexivity|].
  exact (proj1 (proj2 (proj2 (configure_replaces_whole_sections
                                (mergeConfig
                                   (mkCanvasConfig Absent
                                      (Given (mkTouchConfig Absent Absent (Given 80)))
                                      Absent)))))
               Absent (mkTouchConfig Absent (Given false) Absent) Absent eq_refl).
Defined.

(** * Zoom *)

(** X16. [setZoom] hands the canvas, and announces on the zoom-changed channel,
    the same level; with [minZoom <= maxZoom] that level lies between the
    two bounds and is the requested level itself when the request lies
    between them.  So [resetZoom] gives 100% only if 1 is within the
    bounds. *)
Theorem setZoom_stays_within_bounds vm level z :
  (minZoom vm <= maxZoom vm)%Q ->
  (minZoom vm <= canvasZoom (setZoom vm level z) <= maxZoom vm)%Q /\
  zoomChanged (setZoom vm level z) = zoomChanged z ++ [canvasZoom (setZoom vm level z)] /\
  ((minZoom vm <= level <= maxZoom vm)%Q -> (canvasZoom (setZoom vm level z) == level)%Q) /\
  ((level <= minZoom vm)%Q -> (canvasZoom (setZoom vm level z) == minZoom vm)%Q) /\
  ((maxZoom vm <= level)%Q -> (canvasZoom (setZoom vm level z) == maxZoom vm)%Q).
Proof.
  intros B. unfold setZoom, constrainedZoom. simpl.
  split; [split|split; [reflexivity|split; [|split]]].
  - apply Q.le_max_l.
  - apply Q.max_lub; [exact B|apply Q.le_min_l].
  - intros [L U]. rewrite (Q.min_r _ _ U). apply Q.max_r, L.
  - intros L. apply Q.max_l. apply (Qle_trans _ level); [apply Q.le_min_r|exact L].
  - intros U. rewrite (Q.min_l _ _ U). apply Q.max_r, B.
Qed.

Lemma setZoom_stays_within_bounds_witness :
  ((1 # 10) <= 10)%Q /\
  (canvasZoom (setZoom (mkViewportManager (1 # 10) 10) 25 (mkZoomState 1 [])) == 10)%Q.
Proof.
  assert (B : ((1 # 10) <= 10)%Q) by (vm_compute; discriminate).
  split; [exact B|].
  apply (setZoom_stays_within_bounds (mkViewportManager (1 # 10) 10) 25 (mkZoomState 1 []) B).
  vm_compute. discriminate.
Defined.

(** * After destroy *)

(** X19. [destroy()] leaves the three listeners registered and only switches
    tracking off: once [enable()] is called on a destroyed engine, the next
    mutation notification is recorded on top of the baseline that
    [destroy()] reseeded. *)
Theorem destroy_keeps_the_listeners now w s ev t :
  isUndoing (history w) = false ->
  isRedoing (history w) = false ->
  isEnabled (history w) = true ->
  2 <= maxSize (history w) ->
  undoStack (history (run [CallDestroy now; CallEnable; SceneChanged s; Notify ev t] w)) =
    [mkEntry (getCanvasState w) now; mkEntry s t] /\
  isEnabled (history (run [CallDestroy now; CallEnable; SceneChanged s; Notify ev t] w)) =
    true.
Proof.
  unfold isEnabled. intros U R E M.
  set (w1 := withCanvas (setScene s) (enable (destroy now w))).
  assert (H1 : history w1 =
               mkHistory (maxSize (history w)) [mkEntry (getCanvasState w) now] []
                 false false true).
  { subst w1. unfold withCanvas, enable, withHistory. cbn [history].
    rewrite destroy_history. unfold setEnabled.
    destruct (clearHistory_config now w) as (-> & -> & -> & _).
    rewrite clearHistory_undoStack, clearHistory_redoStack, U, R, E.
    destruct (Z.ltb_spec (maxSize (history w)) 1); [lia|reflexivity]. }
  assert (W : run [CallDestroy now; CallEnable; SceneChanged s; Notify ev t] w =
              saveState t w1).
  { unfold run. cbn [fold_left step]. fold w1. rewrite onMutation_guard, H1. reflexivity. }
  rewrite W. destruct (saveState_config t w1) as (_ & _ & _ & ->).
  rewrite saveState_undoStack by (rewrite H1; reflexivity).
  rewrite H1. cbn [undoStack maxSize enabled]. split; [|reflexivity].
  unfold push. cbn [app length].
  destruct (Z.ltb_spec (maxSize (history w)) (Z.of_nat 2)); [lia|].
  unfold getCanvasState, w1, withCanvas. reflexivity.
Qed.

Lemma destroy_keeps_the_listeners_witness :
  isEnabled (history sampleWorld) = true /\
  getUndoStackSize
    (history (run [CallDestroy 7; CallEnable; SceneChanged "{rect,circle}";
                   Notify ObjectAdded 8] sampleWorld)) = 2%nat.
Proof.
  split; [reflexivity|]. unfold getUndoStackSize.
  rewrite (proj1 (destroy_keeps_the_listeners 7 sampleWorld "{rect,circle}"%string
                    ObjectAdded 8 eq_refl eq_refl eq_refl
                    ltac:(vm_compute; discriminate))).
  reflexivity.
Defined.
